(** * The Droplet external client of provider-digitalocean

    A shallow embedding of [pkg/controller/compute/droplet.go]: the four
    lifecycle operations [Observe], [Create], [Update] and [Delete] of
    [dropletExternal], together with the library functions they call
    ([strconv.Atoi], [strconv.Itoa], [errors.Wrap], [meta.GetExternalName],
    [meta.SetExternalName], [ConditionedStatus.SetConditions]).

    The provider API ([c.Droplets]) and the declarative store ([c.kube]) are
    an opaque boundary: the receiver [c] gives the answer of every call, and
    every call an operation makes is recorded, in order, as a [Call].  The
    record [cr] is mutated in place by the Go code; an operation here hands
    back the record as it left it, next to the values it returned. *)

From Stdlib Require Import ZArith String Ascii List Bool Lia.
From stdpp Require Import base decidable option gmap strings.

Import ListNotations.
Local Open Scope string_scope.
Local Open Scope Z_scope.

(** ** strconv *)

Module strconv.

(** Go's [int] on the 64-bit platforms the provider is built for. *)
Definition minInt : Z := - 2 ^ 63.
Definition maxInt : Z := 2 ^ 63 - 1.
Definition is_int (i : Z) : Prop := minInt <= i <= maxInt.
Definition is_intb (i : Z) : bool := (minInt <=? i) && (i <=? maxInt).

(** [digits[u]] of strconv, for [0 <= u < 10]. *)
Definition digit (u : Z) : ascii := ascii_of_nat (48 + Z.to_nat u).

(** The general loop of [formatBits] in base 10: the digits of [u] are
    written from the least significant one, in front of [acc].  The buffer
    of the source holds the 20 digits of the largest uint64; [fuel] counts
    the digits that may still be written after the current one. *)
Fixpoint formatBits (fuel : nat) (u : Z) (acc : string) : string :=
  match fuel with
  | O => String (digit u) acc
  | S fuel' =>
      if 10 <=? u
      then formatBits fuel' (u / 10) (String (digit (u mod 10)) acc)
      else String (digit u) acc
  end.

(** [strconv.Itoa(i)], that is [FormatInt(int64(i), 10)]. *)
Definition Itoa (i : Z) : string :=
  if i <? 0 then String "-" (formatBits 19 (- i) "") else formatBits 19 i "".

(** [ch -= '0'; if ch > 9 { syntax error }]. *)
Definition digitValue (ch : ascii) : option Z :=
  let n := Z.of_nat (nat_of_ascii ch) in
  if (48 <=? n) && (n <=? 57) then Some (n - 48) else None.

(** The digit loop of [Atoi] and [ParseUint] in base 10:
    [n = n*10 + int(ch)], a syntax error at the first byte that is no
    digit. *)
Fixpoint parseDigits (s : string) (n : Z) : option Z :=
  match s with
  | EmptyString => Some n
  | String ch rest =>
      match digitValue ch with
      | Some d => parseDigits rest (n * 10 + d)
      | None => None
      end
  end.

Definition isSign (ch : ascii) : bool :=
  Ascii.eqb ch "-" || Ascii.eqb ch "+".

(** [strconv.Atoi(s)]: [Some i] for [(i, nil)], [None] for a syntax or
    range error.  An optional sign, then at least one decimal digit and
    nothing else; the value has to fit [int]. *)
Definition Atoi (s : string) : option Z :=
  match s with
  | EmptyString => None
  | String ch rest =>
      let body := if isSign ch then rest else s in
      match body with
      | EmptyString => None
      | String _ _ =>
          match parseDigits body 0 with
          | Some un =>
              let i := if Ascii.eqb ch "-" then - un else un in
              if is_intb i then Some i else None
          | None => None
          end
      end
  end.

End strconv.


(** ** github.com/pkg/errors *)

Module errors.

(** A Go [error] that is not nil.  A nil [error] is [None] of
    [option error]. *)
Inductive error : Type :=
| errorString (s : string)
| withMessage (cause : error) (message : string).

#[global] Instance error_eq_dec : EqDecision error.
Proof. solve_decision. Defined.

(** [errors.New(message)]. *)
Definition New (message : string) : option error :=
  Some (errorString message).

(** [errors.Wrap(err, message)]: "If err is nil, Wrap returns nil." *)
Definition Wrap (err : option error) (message : string) : option error :=
  match err with
  | None => None
  | Some cause => Some (withMessage cause message)
  end.

(** [err.Error()]. *)
Fixpoint Error (e : error) : string :=
  match e with
  | errorString s => s
  | withMessage cause message => message +:+ ": " +:+ Error cause
  end.

End errors.

(** ** crossplane-runtime: apis/common/v1 *)

Module xpv1.

(** A [Condition]; [LastTransitionTime] is a reading of the clock. *)
Record Condition : Type := {
  Type_ : string;
  Status : string;
  LastTransitionTime : Z;
  Reason : string;
  Message : string
}.

Definition TypeReady : string := "Ready".
Definition TypeSynced : string := "Synced".
Definition ConditionTrue : string := "True".
Definition ConditionFalse : string := "False".
Definition ConditionUnknown : string := "Unknown".
Definition ReasonAvailable : string := "Available".
Definition ReasonCreating : string := "Creating".
Definition ReasonDeleting : string := "Deleting".

(** [Creating()], [Available()] and [Deleting()]; [now] is [metav1.Now()]. *)
Definition Creating (now : Z) : Condition :=
  {| Type_ := TypeReady; Status := ConditionFalse; LastTransitionTime := now;
     Reason := ReasonCreating; Message := "" |}.

Definition Available (now : Z) : Condition :=
  {| Type_ := TypeReady; Status := ConditionTrue; LastTransitionTime := now;
     Reason := ReasonAvailable; Message := "" |}.

Definition Deleting (now : Z) : Condition :=
  {| Type_ := TypeReady; Status := ConditionFalse; LastTransitionTime := now;
     Reason := ReasonDeleting; Message := "" |}.

(** [c.Equal(other)]: identical, ignoring the [LastTransitionTime]. *)
Definition Equal (c other : Condition) : bool :=
  String.eqb (Type_ c) (Type_ other) && String.eqb (Status c) (Status other)
  && String.eqb (Reason c) (Reason other) && String.eqb (Message c) (Message other).

(** [ConditionedStatus]: the conditions of a resource, in order. *)
Record ConditionedStatus : Type := { Conditions : list Condition }.

(** The inner loop of [SetConditions] for one condition [new]: every
    existing condition of the type of [new] that is not [Equal] to it is
    overwritten in place; the flag tells whether one of that type exists. *)
Fixpoint setExisting (new : Condition) (cs : list Condition)
  : list Condition * bool :=
  match cs with
  | [] => ([], false)
  | existing :: rest =>
      let '(rest', exists_) := setExisting new rest in
      if negb (String.eqb (Type_ existing) (Type_ new))
      then (existing :: rest', exists_)
      else if Equal existing new
           then (existing :: rest', true)
           else (new :: rest', true)
  end.

Definition SetCondition (s : ConditionedStatus) (new : Condition)
  : ConditionedStatus :=
  let '(cs, exists_) := setExisting new (Conditions s) in
  {| Conditions := if exists_ then cs else cs ++ [new] |}.

(** [s.SetConditions(c...)]. *)
Definition SetConditions (s : ConditionedStatus) (c : list Condition)
  : ConditionedStatus :=
  fold_left SetCondition c s.

(** [s.GetCondition(ct)]: the first condition of type [ct], an Unknown one
    if there is none. *)
Definition GetCondition (s : ConditionedStatus) (ct : string) : Condition :=
  match List.find (fun c => String.eqb (Type_ c) ct) (Conditions s) with
  | Some c => c
  | None => {| Type_ := ct; Status := ConditionUnknown; LastTransitionTime := 0;
               Reason := ""; Message := "" |}
  end.

End xpv1.

(** ** k8s.io/apimachinery and crossplane-runtime: pkg/meta *)

Module meta.

(** The part of [metav1.ObjectMeta] the controller reads and writes. *)
Record ObjectMeta : Type := {
  Name : string;
  Annotations : gmap string string
}.

Definition AnnotationKeyExternalName : string := "crossplane.io/external-name".

(** [meta.GetExternalName(o)]: the annotation, [""] when it is absent. *)
Definition GetExternalName (o : ObjectMeta) : string :=
  default "" (Annotations o !! AnnotationKeyExternalName).

(** [meta.SetExternalName(o, name)]. *)
Definition SetExternalName (o : ObjectMeta) (name : string) : ObjectMeta :=
  {| Name := Name o;
     Annotations := <[AnnotationKeyExternalName := name]> (Annotations o) |}.

End meta.

(** ** apis/compute/v1alpha1

    The Go declarations are not under src/; the records follow the schema of
    the Droplet resource definition (package/crds).  An optional scalar is a
    Go pointer ([None] is nil); a slice is [None] when nil, which
    [cmp.Equal] tells apart from an empty one. *)

Module v1alpha1.

Record DropletParameters : Type := {
  Region : string;
  Size : string;
  Image : string;
  SSHKeys : option (list string);
  Backups : option bool;
  IPv6 : option bool;
  PrivateNetworking : option bool;
  Monitoring : option bool;
  Volumes : option (list string);
  Tags : option (list string);
  VPCUUID : option string;
  WithDropletAgent : option bool
}.

#[global] Instance DropletParameters_eq_dec : EqDecision DropletParameters.
Proof. solve_decision. Defined.

(** [in.DeepCopy()]: a copy that shares nothing with [in]. *)
Definition DeepCopy (p : DropletParameters) : DropletParameters := p.

Module DropletObservation.
Record t : Type := {
  CreationTimestamp : string;
  ID : Z;
  Status : string
}.
End DropletObservation.

Definition StatusNew : string := "new".
Definition StatusActive : string := "active".
Definition StatusOff : string := "off".
Definition StatusArchive : string := "archive".

(** [xpv1.ResourceSpec], consumed by the reconciler only. *)
Record ResourceSpec : Type := {
  WriteConnectionSecretToReference : option (string * string);
  ProviderConfigReference : option string;
  ProviderReference : option string;
  DeletionPolicy : string
}.

Record DropletSpec : Type := {
  ResourceSpec_ : ResourceSpec;
  ForProvider : DropletParameters
}.

Record DropletStatus : Type := {
  ResourceStatus : xpv1.ConditionedStatus;
  AtProvider : DropletObservation.t
}.

Record Droplet : Type := {
  ObjectMeta : meta.ObjectMeta;
  Spec : DropletSpec;
  Status : DropletStatus
}.

Definition GetName (cr : Droplet) : string := meta.Name (ObjectMeta cr).

(** In-place writes through the pointer [cr]. *)
Definition withObjectMeta (m : meta.ObjectMeta) (cr : Droplet) : Droplet :=
  {| ObjectMeta := m; Spec := Spec cr; Status := Status cr |}.

Definition withForProvider (p : DropletParameters) (cr : Droplet) : Droplet :=
  {| ObjectMeta := ObjectMeta cr;
     Spec := {| ResourceSpec_ := ResourceSpec_ (Spec cr); ForProvider := p |};
     Status := Status cr |}.

Definition withAtProvider (o : DropletObservation.t) (cr : Droplet) : Droplet :=
  {| ObjectMeta := ObjectMeta cr;
     Spec := Spec cr;
     Status := {| ResourceStatus := ResourceStatus (Status cr); AtProvider := o |} |}.

Definition withResourceStatus (s : xpv1.ConditionedStatus) (cr : Droplet) : Droplet :=
  {| ObjectMeta := ObjectMeta cr;
     Spec := Spec cr;
     Status := {| ResourceStatus := s; AtProvider := AtProvider (Status cr) |} |}.

(** [cr.SetConditions(c...)], which is [cr.Status.SetConditions(c...)]. *)
Definition SetConditions (c : list xpv1.Condition) (cr : Droplet) : Droplet :=
  withResourceStatus (xpv1.SetConditions (ResourceStatus (Status cr)) c) cr.

Definition GetExternalName (cr : Droplet) : string :=
  meta.GetExternalName (ObjectMeta cr).

Definition SetExternalName (name : string) (cr : Droplet) : Droplet :=
  withObjectMeta (meta.SetExternalName (ObjectMeta cr) name) cr.

(** [cr.GetCondition(ct)], which is [cr.Status.GetCondition(ct)]. *)
Definition GetCondition (ct : string) (cr : Droplet) : xpv1.Condition :=
  xpv1.GetCondition (ResourceStatus (Status cr)) ct.

End v1alpha1.

(** ** github.com/digitalocean/godo *)

Module godo.

Record Response : Type := { StatusCode : Z }.

(** The fields of [godo.Droplet] that describe the instance itself. *)
Record Droplet : Type := {
  ID : Z;
  Name : string;
  SizeSlug : string;
  Features : list string;
  Status : string;
  Created : string;
  Tags : list string;
  VolumeIDs : list string;
  VPCUUID : string
}.

Module DropletCreateRequest.
Record t : Type := {
  Name : string;
  Region : string;
  Size : string;
  Image : string;
  SSHKeys : list string;
  Backups : bool;
  IPv6 : bool;
  PrivateNetworking : bool;
  Monitoring : bool;
  UserData : string;
  Volumes : list string;
  Tags : list string;
  VPCUUID : string;
  WithDropletAgent : option bool
}.

(** [&godo.DropletCreateRequest{}]. *)
Definition zero : t :=
  {| Name := ""; Region := ""; Size := ""; Image := ""; SSHKeys := [];
     Backups := false; IPv6 := false; PrivateNetworking := false;
     Monitoring := false; UserData := ""; Volumes := []; Tags := [];
     VPCUUID := ""; WithDropletAgent := None |}.
End DropletCreateRequest.

(** [godo.DropletsService], as far as the controller calls it.  A nil
    pointer or a nil error of the Go results is [None]. *)
Record DropletsService : Type := {
  Get : Z -> option Droplet * option Response * option errors.error;
  Create : DropletCreateRequest.t ->
           option Droplet * option Response * option errors.error;
  Delete : Z -> option Response * option errors.error
}.

End godo.

(** ** sigs.k8s.io/controller-runtime: pkg/client *)

Module client.

(** [client.Client], as far as the controller calls it: [Update] persists
    the record and reports an error or nil.  The record in memory is taken
    to be the same after the call as before it. *)
Record Client : Type := {
  Update : v1alpha1.Droplet -> option errors.error
}.

End client.

(** ** crossplane-runtime: pkg/reconciler/managed and pkg/resource *)

Module managed.

Record ExternalObservation : Type := {
  ResourceExists : bool;
  ResourceUpToDate : bool;
  ObservationConnectionDetails : gmap string string
}.

Record ExternalCreation : Type := {
  ExternalNameAssigned : bool;
  CreationConnectionDetails : gmap string string
}.

Record ExternalUpdate : Type := {
  UpdateConnectionDetails : gmap string string
}.

End managed.

(** [resource.Managed]: the record handed to an operation is a Droplet or a
    managed resource of another kind. *)
Inductive Managed : Type :=
| IsDroplet (cr : v1alpha1.Droplet)
| OtherKind (kind : string) (o : meta.ObjectMeta).

(** ** The boundary: provider API, declarative store, recorded calls *)

(** The receiver [c] of the operations: the store and the provider. *)
Record dropletExternal : Type := {
  kube : client.Client;
  Droplets : godo.DropletsService
}.

(** A call that crossed the boundary, with its arguments. *)
Inductive Call : Type :=
| CallGet (dropletID : Z)
| CallCreate (createRequest : godo.DropletCreateRequest.t)
| CallDelete (dropletID : Z)
| CallKubeUpdate (obj : v1alpha1.Droplet).

(** The state of one operation: the record behind the pointer [cr] and the
    calls made so far, the latest last. *)
Record Pass : Type := {
  record : v1alpha1.Droplet;
  calls : list Call
}.

(** An operation returns a value or panics (a nil pointer dereference). *)
Inductive Result (A : Type) : Type :=
| Done (a : A)
| Panicked.
Arguments Done {A} a.
Arguments Panicked {A}.

Definition M (A : Type) : Type := Pass -> Result A * Pass.

#[global] Instance M_ret : MRet M := fun A a s => (Done a, s).

#[global] Instance M_bind : MBind M := fun A B k m s =>
  match m s with
  | (Done a, s') => k a s'
  | (Panicked, s') => (Panicked, s')
  end.

(** Read the record behind [cr]. *)
Definition load : M v1alpha1.Droplet := fun s => (Done (record s), s).

(** Write through [cr]. *)
Definition store (f : v1alpha1.Droplet -> v1alpha1.Droplet) : M unit :=
  fun s => (Done tt, {| record := f (record s); calls := calls s |}).

(** Cross the boundary: record the call, hand back the answer. *)
Definition call {A : Type} (c : Call) (answer : A) : M A :=
  fun s => (Done answer, {| record := record s; calls := calls s ++ [c] |}).

Definition panic {A : Type} : M A := fun s => (Panicked, s).

(** [*p] for a pointer [p]. *)
Definition deref {A : Type} (p : option A) : M A :=
  match p with
  | Some a => mret a
  | None => panic
  end.

(** What the caller of an operation sees: the record it handed in, as the
    operation left it, the calls made, and the values returned. *)
Record Outcome (A : Type) : Type := {
  object : Managed;
  made : list Call;
  result : Result A
}.
Arguments object {A} _.
Arguments made {A} _.
Arguments result {A} _.

Definition run {A : Type} (m : M A) (cr : v1alpha1.Droplet) : Outcome A :=
  let '(r, s) := m {| record := cr; calls := [] |} in
  {| object := IsDroplet (record s); made := calls s; result := r |}.

(** ** pkg/controller/compute/droplet.go *)

Definition errNotDroplet : string := "managed resource is not a Droplet resource".
Definition errGetDroplet : string := "cannot get droplet".
Definition errDropletCreateFailed : string := "creation of Droplet resource has failed".
Definition errDropletDeleteFailed : string := "deletion of Droplet resource has failed".
Definition errDropletUpdate : string := "cannot update managed Droplet resource".

(** [cmp.Equal(x, y)] on two [*DropletParameters]: structural equality of
    what the pointers refer to. *)
Definition cmpEqual (x y : v1alpha1.DropletParameters) : bool :=
  bool_decide (x = y).

Arguments cmpEqual : simpl never.

Definition zeroObservation : managed.ExternalObservation :=
  {| managed.ResourceExists := false; managed.ResourceUpToDate := false;
     managed.ObservationConnectionDetails := ∅ |}.

Definition zeroCreation : managed.ExternalCreation :=
  {| managed.ExternalNameAssigned := false;
     managed.CreationConnectionDetails := ∅ |}.

Definition zeroUpdate : managed.ExternalUpdate :=
  {| managed.UpdateConnectionDetails := ∅ |}.

Section Client.

(** The helpers of [pkg/clients] and [pkg/clients/compute] are not under
    src/.  [LateInitializeSpec] and [GenerateDroplet] are taken as they are:
    the first can only write the parameters it is given a pointer to, the
    second only the request. *)
Variable reportsNotFound : errors.error -> option godo.Response -> bool.
Variable LateInitializeSpec :
  v1alpha1.DropletParameters -> godo.Droplet -> v1alpha1.DropletParameters.
Variable GenerateDroplet :
  string -> v1alpha1.DropletParameters -> godo.DropletCreateRequest.t ->
  godo.DropletCreateRequest.t.

(** Modelled from the spec: [do.IgnoreNotFound] of pkg/clients is not under
    src/.  A "not found" answer of the provider is not an error; any other
    error is passed on as it is.  How an answer is recognised as "not found"
    is left to [reportsNotFound]. *)
Definition IgnoreNotFound (err : option errors.error)
  (response : option godo.Response) : option errors.error :=
  match err with
  | Some e => if reportsNotFound e response then None else Some e
  | None => None
  end.

(** The value of [externalID] when the provider is asked for the instance:
    the identity as a number, the sentinel 0 if it does not parse. *)
Definition externalID (cr : v1alpha1.Droplet) : Z :=
  match strconv.Atoi (v1alpha1.GetExternalName cr) with
  | Some i => i
  | None => 0
  end.

(** The request [create] handed to the provider: the identity as name if
    there is one, else the name of the record. *)
Definition createRequest (cr : v1alpha1.Droplet) : godo.DropletCreateRequest.t :=
  let name :=
    if String.eqb (v1alpha1.GetExternalName cr) ""
    then v1alpha1.GetName cr
    else v1alpha1.GetExternalName cr in
  GenerateDroplet name (v1alpha1.ForProvider (v1alpha1.Spec cr))
    godo.DropletCreateRequest.zero.

Variable c : dropletExternal.

(** The reading of [metav1.Now()] during the operation. *)
Variable now : Z.

(** [switch cr.Status.AtProvider.Status] at the end of Observe: the case
    [StatusNew], the case [StatusActive], and no default. *)
Definition switchStatus (cr : v1alpha1.Droplet) : v1alpha1.Droplet :=
  let status :=
    v1alpha1.DropletObservation.Status (v1alpha1.AtProvider (v1alpha1.Status cr)) in
  if String.eqb status v1alpha1.StatusNew then
    v1alpha1.SetConditions [xpv1.Creating now] cr
  else if String.eqb status v1alpha1.StatusActive then
    v1alpha1.SetConditions [xpv1.Available now] cr
  else cr.

(** [observed], as Observe copies it into [cr.Status.AtProvider]. *)
Definition observation (observed : godo.Droplet) : v1alpha1.DropletObservation.t :=
  {| v1alpha1.DropletObservation.CreationTimestamp := godo.Created observed;
     v1alpha1.DropletObservation.ID := godo.ID observed;
     v1alpha1.DropletObservation.Status := godo.Status observed |}.

(** The record after [LateInitializeSpec(&cr.Spec.ForProvider, *observed)]. *)
Definition lateInitialized (cr : v1alpha1.Droplet) (observed : godo.Droplet)
  : v1alpha1.Droplet :=
  v1alpha1.withForProvider
    (LateInitializeSpec (v1alpha1.ForProvider (v1alpha1.Spec cr)) observed) cr.

(** The body of [Observe] after the type assertion. *)
Definition observeDroplet
  : M (managed.ExternalObservation * option errors.error) :=
  cr ← load;
  if String.eqb (v1alpha1.GetExternalName cr) "" then
    mret ({| managed.ResourceExists := false;
            managed.ResourceUpToDate := false;
            managed.ObservationConnectionDetails := ∅ |}, None)
  else
    let externalID := externalID cr in
    '(observed, response, err) ← call (CallGet externalID) (godo.Get (Droplets c) externalID);
    match err with
    | Some _ =>
        mret (zeroObservation, errors.Wrap (IgnoreNotFound err response) errGetDroplet)
    | None =>
        let currentSpec := v1alpha1.DeepCopy (v1alpha1.ForProvider (v1alpha1.Spec cr)) in
        observed ← deref observed;
        store (fun cr => lateInitialized cr observed) ;;
        cr ← load;
        err ← (if negb (cmpEqual currentSpec (v1alpha1.ForProvider (v1alpha1.Spec cr)))
                then call (CallKubeUpdate cr) (client.Update (kube c) cr)
                else mret None);
        match err with
        | Some _ => mret (zeroObservation, errors.Wrap err errDropletUpdate)
        | None =>
            store (v1alpha1.withAtProvider (observation observed)) ;;
            store switchStatus ;;
            mret ({| managed.ResourceExists := true;
                    managed.ResourceUpToDate := true;
                    managed.ObservationConnectionDetails := ∅ |}, None)
        end
    end.

Definition Observe (mg : Managed)
  : Outcome (managed.ExternalObservation * option errors.error) :=
  match mg with
  | IsDroplet cr => run observeDroplet cr
  | OtherKind _ _ =>
      {| object := mg; made := [];
         result := Done (zeroObservation, errors.New errNotDroplet) |}
  end.

(** The body of [Create] after the type assertion. *)
Definition createDroplet
  : M (managed.ExternalCreation * option errors.error) :=
  store (v1alpha1.SetConditions [xpv1.Creating now]) ;;
  cr ← load;
  let create := createRequest cr in
  '(droplet, _, err) ← call (CallCreate create) (godo.Create (Droplets c) create);
  match err, droplet with
  | None, Some droplet =>
      (if String.eqb (v1alpha1.GetExternalName cr) "" then
         store (v1alpha1.SetExternalName (strconv.Itoa (godo.ID droplet)))
       else mret tt) ;;
      mret ({| managed.ExternalNameAssigned := true;
              managed.CreationConnectionDetails := ∅ |}, None)
  | _, _ =>
      mret (zeroCreation, errors.Wrap err errDropletCreateFailed)
  end.

Definition Create (mg : Managed)
  : Outcome (managed.ExternalCreation * option errors.error) :=
  match mg with
  | IsDroplet cr => run createDroplet cr
  | OtherKind _ _ =>
      {| object := mg; made := [];
         result := Done (zeroCreation, errors.New errNotDroplet) |}
  end.

(** [Update]: "Droplets cannot be updated."  No type assertion, no call. *)
Definition Update (mg : Managed)
  : Outcome (managed.ExternalUpdate * option errors.error) :=
  {| object := mg; made := []; result := Done (zeroUpdate, None) |}.

(** The body of [Delete] after the type assertion. *)
Definition deleteDroplet : M (option errors.error) :=
  store (v1alpha1.SetConditions [xpv1.Deleting now]) ;;
  cr ← load;
  let dropletID :=
    v1alpha1.DropletObservation.ID (v1alpha1.AtProvider (v1alpha1.Status cr)) in
  '(response, err) ← call (CallDelete dropletID) (godo.Delete (Droplets c) dropletID);
  mret (errors.Wrap (IgnoreNotFound err response) errDropletDeleteFailed).

Definition Delete (mg : Managed) : Outcome (option errors.error) :=
  match mg with
  | IsDroplet cr => run deleteDroplet cr
  | OtherKind _ _ =>
      {| object := mg; made := []; result := Done (errors.New errNotDroplet) |}
  end.

End Client.

(** ** The reconciler's view: any sequence of operations *)

Inductive Operation : Type := OpObserve | OpCreate | OpUpdate | OpDelete.

(** The identity (external name) of a managed resource. *)
Definition identity (mg : Managed) : string :=
  match mg with
  | IsDroplet cr => v1alpha1.GetExternalName cr
  | OtherKind _ o => meta.GetExternalName o
  end.

Section Reconciler.

Variable reportsNotFound : errors.error -> option godo.Response -> bool.
Variable LateInitializeSpec :
  v1alpha1.DropletParameters -> godo.Droplet -> v1alpha1.DropletParameters.
Variable GenerateDroplet :
  string -> v1alpha1.DropletParameters -> godo.DropletCreateRequest.t ->
  godo.DropletCreateRequest.t.

(** The record as one operation leaves it. *)
Definition after (op : Operation) (c : dropletExternal) (now : Z) (mg : Managed)
  : Managed :=
  match op with
  | OpObserve => object (Observe reportsNotFound LateInitializeSpec c now mg)
  | OpCreate => object (Create GenerateDroplet c now mg)
  | OpUpdate => object (Update mg)
  | OpDelete => object (Delete reportsNotFound c now mg)
  end.

(** The record after a sequence of operations, each with the client it was
    connected with and its own reading of the clock. *)
Fixpoint reconcile (steps : list (Operation * dropletExternal * Z)) (mg : Managed)
  : Managed :=
  match steps with
  | [] => mg
  | (op, c, now) :: rest => reconcile rest (after op c now mg)
  end.

End Reconciler.

(** ** Collaborators and records for the examples *)

Module Example.

(** Modelled from the spec: how [do.IgnoreNotFound] recognises "not found"
    is not under src/.  Here it is the HTTP status 404 of the response. *)
Definition statusNotFound (e : errors.error) (response : option godo.Response)
  : bool :=
  match response with
  | Some r => godo.StatusCode r =? 404
  | None => false
  end.

Definition orElse {A : Type} (set : option A) (observed : option A) : option A :=
  match set with
  | Some _ => set
  | None => observed
  end.

(** Modelled from the spec: [docompute.LateInitializeSpec] is not under
    src/.  A field the record never set is filled from the observed
    instance; a field the user set is never overwritten.  Filled here: the
    VPC reference, the tags and the volumes. *)
Definition lateInitialize (p : v1alpha1.DropletParameters) (observed : godo.Droplet)
  : v1alpha1.DropletParameters :=
  {| v1alpha1.Region := v1alpha1.Region p;
     v1alpha1.Size := v1alpha1.Size p;
     v1alpha1.Image := v1alpha1.Image p;
     v1alpha1.SSHKeys := v1alpha1.SSHKeys p;
     v1alpha1.Backups := v1alpha1.Backups p;
     v1alpha1.IPv6 := v1alpha1.IPv6 p;
     v1alpha1.PrivateNetworking := v1alpha1.PrivateNetworking p;
     v1alpha1.Monitoring := v1alpha1.Monitoring p;
     v1alpha1.Volumes :=
       orElse (v1alpha1.Volumes p)
         (if godo.VolumeIDs observed is [] then None else Some (godo.VolumeIDs observed));
     v1alpha1.Tags :=
       orElse (v1alpha1.Tags p)
         (if godo.Tags observed is [] then None else Some (godo.Tags observed));
     v1alpha1.VPCUUID :=
       orElse (v1alpha1.VPCUUID p)
         (if String.eqb (godo.VPCUUID observed) "" then None
          else Some (godo.VPCUUID observed));
     v1alpha1.WithDropletAgent := v1alpha1.WithDropletAgent p |}.

(** Modelled from the spec: [docompute.GenerateDroplet] is not under src/.
    A 1:1 field mapping; array-valued fields pass through as they are. *)
Definition generateDroplet (name : string) (p : v1alpha1.DropletParameters)
  (create : godo.DropletCreateRequest.t) : godo.DropletCreateRequest.t :=
  {| godo.DropletCreateRequest.Name := name;
     godo.DropletCreateRequest.Region := v1alpha1.Region p;
     godo.DropletCreateRequest.Size := v1alpha1.Size p;
     godo.DropletCreateRequest.Image := v1alpha1.Image p;
     godo.DropletCreateRequest.SSHKeys := default [] (v1alpha1.SSHKeys p);
     godo.DropletCreateRequest.Backups := default false (v1alpha1.Backups p);
     godo.DropletCreateRequest.IPv6 := default false (v1alpha1.IPv6 p);
     godo.DropletCreateRequest.PrivateNetworking :=
       default false (v1alpha1.PrivateNetworking p);
     godo.DropletCreateRequest.Monitoring := default false (v1alpha1.Monitoring p);
     godo.DropletCreateRequest.UserData := godo.DropletCreateRequest.UserData create;
     godo.DropletCreateRequest.Volumes := default [] (v1alpha1.Volumes p);
     godo.DropletCreateRequest.Tags := default [] (v1alpha1.Tags p);
     godo.DropletCreateRequest.VPCUUID := default "" (v1alpha1.VPCUUID p);
     godo.DropletCreateRequest.WithDropletAgent := v1alpha1.WithDropletAgent p |}.

(** The record of the end-to-end scenario: image, region and size set,
    everything else left to the provider. *)
Definition parameters : v1alpha1.DropletParameters :=
  {| v1alpha1.Region := "nyc1"; v1alpha1.Size := "s-1vcpu-1gb";
     v1alpha1.Image := "ubuntu-20-04"; v1alpha1.SSHKeys := None;
     v1alpha1.Backups := None; v1alpha1.IPv6 := None;
     v1alpha1.PrivateNetworking := None; v1alpha1.Monitoring := None;
     v1alpha1.Volumes := None; v1alpha1.Tags := None; v1alpha1.VPCUUID := None;
     v1alpha1.WithDropletAgent := None |}.

(** A Droplet record named "web-1" with the given annotations, conditions
    and last observed ID. *)
Definition droplet (annotations : gmap string string)
  (conditions : list xpv1.Condition) (observedID : Z) : v1alpha1.Droplet :=
  {| v1alpha1.ObjectMeta := {| meta.Name := "web-1"; meta.Annotations := annotations |};
     v1alpha1.Spec :=
       {| v1alpha1.ResourceSpec_ :=
            {| v1alpha1.WriteConnectionSecretToReference := None;
               v1alpha1.ProviderConfigReference := Some "default";
               v1alpha1.ProviderReference := None;
               v1alpha1.DeletionPolicy := "Delete" |};
          v1alpha1.ForProvider := parameters |};
     v1alpha1.Status :=
       {| v1alpha1.ResourceStatus := {| xpv1.Conditions := conditions |};
          v1alpha1.AtProvider :=
            {| v1alpha1.DropletObservation.CreationTimestamp := "";
               v1alpha1.DropletObservation.ID := observedID;
               v1alpha1.DropletObservation.Status := "" |} |} |}.

(** Not yet created: no identity. *)
Definition fresh : v1alpha1.Droplet := droplet ∅ [] 0.

(** With identity [name]. *)
Definition named (name : string) (conditions : list xpv1.Condition) (observedID : Z)
  : v1alpha1.Droplet :=
  droplet {[ meta.AnnotationKeyExternalName := name ]} conditions observedID.

(** An instance as the provider reports it. *)
Definition instance (id : Z) (status : string) (vpc : string) : godo.Droplet :=
  {| godo.ID := id; godo.Name := "web-1"; godo.SizeSlug := "s-1vcpu-1gb";
     godo.Features := []; godo.Status := status;
     godo.Created := "2020-07-21T18:37:44Z"; godo.Tags := [];
     godo.VolumeIDs := []; godo.VPCUUID := vpc |}.

Definition response (code : Z) : option godo.Response :=
  Some {| godo.StatusCode := code |}.

Definition notFound : errors.error :=
  errors.errorString "404 The resource you were accessing could not be found.".

Definition unavailable : errors.error :=
  errors.errorString "503 Service Unavailable".

Definition conflict : errors.error :=
  errors.errorString "the object has been modified; please apply your changes to the latest version".

(** An account that holds the one instance [d]: a get or a delete of another
    ID is answered "not found", a create is answered with [d]. *)
Definition holding (d : godo.Droplet) : godo.DropletsService :=
  {| godo.Get := fun id =>
       if id =? godo.ID d then (Some d, response 200, None)
       else (None, response 404, Some notFound);
     godo.Create := fun _ => (Some d, response 202, None);
     godo.Delete := fun id =>
       if id =? godo.ID d then (response 204, None)
       else (response 404, Some notFound) |}.

(** A provider that answers every create with [answer] and is out of
    service otherwise. *)
Definition creating
  (answer : option godo.Droplet * option godo.Response * option errors.error)
  : godo.DropletsService :=
  {| godo.Get := fun _ => (None, response 503, Some unavailable);
     godo.Create := fun _ => answer;
     godo.Delete := fun _ => (response 503, Some unavailable) |}.

(** A store that accepts every update, and one that refuses every update. *)
Definition accepting : client.Client := {| client.Update := fun _ => None |}.
Definition refusing : client.Client := {| client.Update := fun _ => Some conflict |}.

End Example.

(** * Properties *)

(** ** strconv: a rendered integer parses back *)

Lemma digit_cases (u : Z) :
  0 <= u < 10 ->
  u = 0 \/ u = 1 \/ u = 2 \/ u = 3 \/ u = 4 \/ u = 5 \/ u = 6 \/ u = 7 \/ u = 8 \/ u = 9.
Proof. lia. Qed.

Lemma digitValue_digit (u : Z) :
  0 <= u < 10 -> strconv.digitValue (strconv.digit u) = Some u.
Proof.
  intros Hu.
  destruct (digit_cases u Hu) as [->|[->|[->|[->|[->|[->|[->|[->|[->| ->]]]]]]]]];
    reflexivity.
Qed.

Lemma isSign_digit (u : Z) :
  0 <= u < 10 ->
  strconv.isSign (strconv.digit u) = false /\ Ascii.eqb (strconv.digit u) "-" = false.
Proof.
  intros Hu.
  destruct (digit_cases u Hu) as [->|[->|[->|[->|[->|[->|[->|[->|[->| ->]]]]]]]]];
    split; reflexivity.
Qed.

(** The digits [formatBits] writes in front of [acc] are those of [u]: read
    after a prefix of value [n], they give [n * 10^k + u]. *)
Lemma parseDigits_formatBits (fuel : nat) :
  forall (u : Z) (acc : string),
    0 <= u < 10 ^ (Z.of_nat fuel + 1) ->
    exists k : Z, 0 <= k /\
      forall n : Z,
        strconv.parseDigits (strconv.formatBits fuel u acc) n
        = strconv.parseDigits acc (n * 10 ^ k + u).
Proof.
  induction fuel as [|fuel IH]; intros u acc Hu.
  - exists 1. split; [lia|]. intros n. cbn [strconv.formatBits strconv.parseDigits].
    change (10 ^ (Z.of_nat 0 + 1)) with 10 in Hu.
    rewrite digitValue_digit by lia. reflexivity.
  - cbn [strconv.formatBits].
    destruct (Z.leb_spec 10 u) as [Hge|Hlt].
    + assert (Hq : 0 <= u / 10 < 10 ^ (Z.of_nat fuel + 1)).
      { split; [apply Z.div_pos; lia|].
        apply Z.div_lt_upper_bound; [lia|].
        replace (Z.of_nat (S fuel) + 1) with (Z.succ (Z.of_nat fuel + 1)) in Hu by lia.
        rewrite Z.pow_succ_r in Hu by lia. lia. }
      destruct (IH (u / 10) (String (strconv.digit (u mod 10)) acc) Hq) as (k & Hk & Heq).
      exists (Z.succ k). split; [lia|]. intros n.
      rewrite Heq. cbn [strconv.parseDigits].
      assert (Hm : 0 <= u mod 10 < 10) by (apply Z.mod_pos_bound; lia).
      rewrite digitValue_digit by exact Hm.
      f_equal. rewrite Z.pow_succ_r by lia.
      pose proof (Z.div_mod u 10 ltac:(lia)). lia.
    + exists 1. split; [lia|]. intros n. cbn [strconv.parseDigits].
      rewrite digitValue_digit by lia. reflexivity.
Qed.

Lemma formatBits_head (fuel : nat) :
  forall (u : Z) (acc : string),
    0 <= u < 10 ^ (Z.of_nat fuel + 1) ->
    exists (d : Z) (rest : string),
      0 <= d < 10 /\ strconv.formatBits fuel u acc = String (strconv.digit d) rest.
Proof.
  induction fuel as [|fuel IH]; intros u acc Hu.
  - change (10 ^ (Z.of_nat 0 + 1)) with 10 in Hu.
    exists u, acc. split; [lia|reflexivity].
  - cbn [strconv.formatBits].
    destruct (Z.leb_spec 10 u) as [Hge|Hlt].
    + apply IH. split; [apply Z.div_pos; lia|].
      apply Z.div_lt_upper_bound; [lia|].
      replace (Z.of_nat (S fuel) + 1) with (Z.succ (Z.of_nat fuel + 1)) in Hu by lia.
      rewrite Z.pow_succ_r in Hu by lia. lia.
    + exists u, acc. split; [lia|reflexivity].
Qed.

Lemma is_intb_true (i : Z) : strconv.is_int i -> strconv.is_intb i = true.
Proof.
  unfold strconv.is_int, strconv.is_intb. intros [Hlo Hhi].
  apply andb_true_iff. split; apply Z.leb_le; assumption.
Qed.

Lemma Atoi_unsigned (ch : ascii) (rest : string) (un : Z) :
  strconv.isSign ch = false -> Ascii.eqb ch "-" = false ->
  strconv.parseDigits (String ch rest) 0 = Some un ->
  strconv.is_int un ->
  strconv.Atoi (String ch rest) = Some un.
Proof.
  intros Hsign Hminus Hparse Hun. unfold strconv.Atoi.
  rewrite Hsign, Hparse, Hminus, (is_intb_true un Hun). reflexivity.
Qed.

Lemma Atoi_minus (ch : ascii) (rest : string) (un : Z) :
  strconv.parseDigits (String ch rest) 0 = Some un ->
  strconv.is_int (- un) ->
  strconv.Atoi (String "-" (String ch rest)) = Some (- un).
Proof.
  intros Hparse Hun. unfold strconv.Atoi.
  change (strconv.isSign "-") with true. change (Ascii.eqb "-" "-") with true.
  cbv iota. rewrite Hparse, (is_intb_true (- un) Hun). reflexivity.
Qed.

(** [strconv.Atoi(strconv.Itoa(i))] is [i], for every [int]. *)
Lemma Atoi_Itoa (i : Z) : strconv.is_int i -> strconv.Atoi (strconv.Itoa i) = Some i.
Proof.
  intros Hi. unfold strconv.Itoa.
  assert (Hrange : - 2 ^ 63 <= i <= 2 ^ 63 - 1) by exact Hi.
  destruct (Z.ltb_spec i 0) as [Hneg|Hpos].
  - assert (Hu : 0 <= - i < 10 ^ (Z.of_nat 19 + 1)) by (cbn; lia).
    destruct (formatBits_head 19 (- i) "" Hu) as (d & rest & Hd & Hhead).
    destruct (parseDigits_formatBits 19 (- i) "" Hu) as (k & _ & Hparse).
    specialize (Hparse 0). rewrite Hhead in Hparse |- *.
    change (strconv.parseDigits "" (0 * 10 ^ k + - i))
      with (Some (0 * 10 ^ k + - i)) in Hparse.
    replace (0 * 10 ^ k + - i) with (- i) in Hparse by lia.
    replace (Some i) with (Some (- - i)) by (f_equal; lia).
    apply Atoi_minus; [exact Hparse|].
    replace (- - i) with i by lia. exact Hi.
  - assert (Hu : 0 <= i < 10 ^ (Z.of_nat 19 + 1)) by (cbn; lia).
    destruct (formatBits_head 19 i "" Hu) as (d & rest & Hd & Hhead).
    destruct (parseDigits_formatBits 19 i "" Hu) as (k & _ & Hparse).
    destruct (isSign_digit d Hd) as [Hsign Hminus].
    specialize (Hparse 0). rewrite Hhead in Hparse |- *.
    change (strconv.parseDigits "" (0 * 10 ^ k + i))
      with (Some (0 * 10 ^ k + i)) in Hparse.
    replace (0 * 10 ^ k + i) with i in Hparse by lia.
    apply Atoi_unsigned; assumption.
Qed.

Example Itoa_renders :
  strconv.Itoa 123456 = "123456" /\ strconv.Itoa 0 = "0" /\ strconv.Itoa (- 42) = "-42"
  /\ strconv.Itoa strconv.minInt = "-9223372036854775808".
Proof. repeat split. Qed.

Example Atoi_parses :
  strconv.Atoi "123456" = Some 123456 /\ strconv.Atoi "+5" = Some 5
  /\ strconv.Atoi "-9223372036854775808" = Some strconv.minInt
  /\ strconv.Atoi "" = None /\ strconv.Atoi "-" = None /\ strconv.Atoi "web-1" = None
  /\ strconv.Atoi "12a" = None /\ strconv.Atoi "9223372036854775808" = None.
Proof. repeat split. Qed.

(** ** Conditions *)

Lemma Equal_refl (c : xpv1.Condition) : xpv1.Equal c c = true.
Proof. unfold xpv1.Equal. rewrite !String.eqb_refl. reflexivity. Qed.

Lemma find_app_none {A : Type} (p : A -> bool) (l l' : list A) :
  List.find p l = None -> List.find p (l ++ l') = List.find p l'.
Proof.
  induction l as [|x l IH]; cbn; [reflexivity|].
  destruct (p x); [discriminate|exact IH].
Qed.

(** No condition of the type of [new]: the loop changes nothing. *)
Lemma setExisting_absent (new : xpv1.Condition) (cs : list xpv1.Condition) :
  snd (xpv1.setExisting new cs) = false ->
  fst (xpv1.setExisting new cs) = cs
  /\ List.find (fun c => String.eqb (xpv1.Type_ c) (xpv1.Type_ new)) cs = None.
Proof.
  induction cs as [|existing rest IH]; cbn; [intros _; split; reflexivity|].
  destruct (xpv1.setExisting new rest) as [rest' found] eqn:Hrest. cbn in IH.
  destruct (String.eqb (xpv1.Type_ existing) (xpv1.Type_ new)) eqn:Htype; cbn.
  - destruct (xpv1.Equal existing new); cbn; discriminate.
  - intros Hfound. destruct (IH Hfound) as [-> Hnone]. split; [reflexivity|exact Hnone].
Qed.

(** A condition of the type of [new] exists: afterwards the first one of
    that type equals [new], the transition time apart. *)
Lemma setExisting_present (new : xpv1.Condition) (cs : list xpv1.Condition) :
  snd (xpv1.setExisting new cs) = true ->
  exists c : xpv1.Condition,
    List.find (fun c => String.eqb (xpv1.Type_ c) (xpv1.Type_ new))
      (fst (xpv1.setExisting new cs)) = Some c
    /\ xpv1.Equal c new = true.
Proof.
  induction cs as [|existing rest IH]; cbn; [discriminate|].
  destruct (xpv1.setExisting new rest) as [rest' found] eqn:Hrest. cbn in IH.
  destruct (String.eqb (xpv1.Type_ existing) (xpv1.Type_ new)) eqn:Htype; cbn.
  - intros _. destruct (xpv1.Equal existing new) eqn:Hequal; cbn.
    + rewrite Htype. exists existing. split; [reflexivity|exact Hequal].
    + rewrite String.eqb_refl. exists new. split; [reflexivity|apply Equal_refl].
  - intros Hfound. rewrite Htype. exact (IH Hfound).
Qed.

(** After [SetConditions(new)], [GetCondition] of the type of [new] equals
    [new], the transition time apart. *)
Lemma GetCondition_SetCondition (s : xpv1.ConditionedStatus) (new : xpv1.Condition) :
  xpv1.Equal (xpv1.GetCondition (xpv1.SetCondition s new) (xpv1.Type_ new)) new = true.
Proof.
  unfold xpv1.SetCondition, xpv1.GetCondition.
  pose proof (setExisting_absent new (xpv1.Conditions s)) as Habsent.
  pose proof (setExisting_present new (xpv1.Conditions s)) as Hpresent.
  destruct (xpv1.setExisting new (xpv1.Conditions s)) as [cs found]. cbn in *.
  destruct found.
  - destruct (Hpresent eq_refl) as (c & -> & Hequal). exact Hequal.
  - destruct (Habsent eq_refl) as [-> Hnone].
    rewrite (find_app_none _ _ _ Hnone). cbn.
    rewrite String.eqb_refl. apply Equal_refl.
Qed.

(** ** The operations *)

Ltac unfold_pass :=
  unfold run, observeDroplet, createDroplet, deleteDroplet,
    mbind, M_bind, mret, M_ret, load, store, call, deref, panic.

Lemma GetExternalName_SetExternalName (name : string) (cr : v1alpha1.Droplet) :
  v1alpha1.GetExternalName (v1alpha1.SetExternalName name cr) = name.
Proof.
  unfold v1alpha1.GetExternalName, v1alpha1.SetExternalName, meta.GetExternalName,
    meta.SetExternalName. cbn.
  rewrite lookup_insert_eq. reflexivity.
Qed.

Lemma eqb_identity_empty (cr : v1alpha1.Droplet) :
  v1alpha1.GetExternalName cr = "" ->
  String.eqb (v1alpha1.GetExternalName cr) "" = true.
Proof. intros ->. reflexivity. Qed.

Lemma eqb_identity_nonempty (cr : v1alpha1.Droplet) :
  v1alpha1.GetExternalName cr <> "" ->
  String.eqb (v1alpha1.GetExternalName cr) "" = false.
Proof. intros H. apply String.eqb_neq. exact H. Qed.

Section Properties.

Variable reportsNotFound : errors.error -> option godo.Response -> bool.
Variable LateInitializeSpec :
  v1alpha1.DropletParameters -> godo.Droplet -> v1alpha1.DropletParameters.
Variable GenerateDroplet :
  string -> v1alpha1.DropletParameters -> godo.DropletCreateRequest.t ->
  godo.DropletCreateRequest.t.

(** C1. Identity hand-off: a Create on a record without identity, answered by
    the provider with an instance and no error, leaves the decimal rendering
    of the instance's ID as the identity; [strconv.Atoi] of it is that ID;
    and the result reports [ExternalNameAssigned = true] with a nil error. *)
Theorem Create_identity_handoff
  (c : dropletExternal) (now : Z) (cr : v1alpha1.Droplet)
  (d : godo.Droplet) (response : option godo.Response) :
  v1alpha1.GetExternalName cr = "" ->
  godo.Create (Droplets c) (createRequest GenerateDroplet cr) = (Some d, response, None) ->
  strconv.is_int (godo.ID d) ->
  exists cr' : v1alpha1.Droplet,
    object (Create GenerateDroplet c now (IsDroplet cr)) = IsDroplet cr'
    /\ v1alpha1.GetExternalName cr' = strconv.Itoa (godo.ID d)
    /\ strconv.Atoi (v1alpha1.GetExternalName cr') = Some (godo.ID d)
    /\ result (Create GenerateDroplet c now (IsDroplet cr))
       = Done ({| managed.ExternalNameAssigned := true;
                  managed.CreationConnectionDetails := ∅ |}, None).
Proof.
  intros Hempty Hcreate Hint.
  unfold Create. unfold_pass. cbn.
  change (createRequest GenerateDroplet
            (v1alpha1.SetConditions [xpv1.Creating now] cr))
    with (createRequest GenerateDroplet cr).
  rewrite Hcreate. cbn.
  change (v1alpha1.GetExternalName (v1alpha1.SetConditions [xpv1.Creating now] cr))
    with (v1alpha1.GetExternalName cr).
  rewrite (eqb_identity_empty cr Hempty). cbn.
  eexists. split; [reflexivity|].
  rewrite GetExternalName_SetExternalName.
  split; [reflexivity|]. split; [apply Atoi_Itoa; exact Hint|reflexivity].
Qed.

(** The error branch of Create: whatever the provider answered besides an
    instance without error, the result is the zero [ExternalCreation] and
    [errors.Wrap] of the provider's error, and the identity is not written. *)
Lemma Create_failure
  (c : dropletExternal) (now : Z) (cr : v1alpha1.Droplet)
  (droplet : option godo.Droplet) (response : option godo.Response)
  (err : option errors.error) :
  godo.Create (Droplets c) (createRequest GenerateDroplet cr) = (droplet, response, err) ->
  err <> None \/ droplet = None ->
  Create GenerateDroplet c now (IsDroplet cr)
  = {| object := IsDroplet (v1alpha1.SetConditions [xpv1.Creating now] cr);
       made := [CallCreate (createRequest GenerateDroplet cr)];
       result := Done (zeroCreation, errors.Wrap err errDropletCreateFailed) |}.
Proof.
  intros Hcreate Hfail.
  unfold Create. unfold_pass. cbn.
  change (createRequest GenerateDroplet
            (v1alpha1.SetConditions [xpv1.Creating now] cr))
    with (createRequest GenerateDroplet cr).
  rewrite Hcreate.
  destruct err as [e|]; [reflexivity|].
  destruct droplet as [d|]; [|reflexivity].
  destruct Hfail as [Hfail|Hfail]; congruence.
Qed.

(** C2. At a provider that answers a create with a nil instance and a nil
    error, Create takes the error branch and returns what
    [errors.Wrap(nil, ...)] returns: a nil error, next to the zero
    [ExternalCreation]. *)
Theorem Create_nil_instance_nil_error
  (k : client.Client) (now : Z) (cr : v1alpha1.Droplet)
  (response : option godo.Response) :
  result (Create GenerateDroplet
            {| kube := k; Droplets := Example.creating (None, response, None) |}
            now (IsDroplet cr))
  = Done ({| managed.ExternalNameAssigned := false;
             managed.CreationConnectionDetails := ∅ |}, None).
Proof.
  rewrite (Create_failure _ now cr None response None); [reflexivity|reflexivity|].
  right. reflexivity.
Qed.

(** The branch of Create behind the guard: whenever the provider answers the
    create with an instance and no error, the result reports
    [ExternalNameAssigned = true], whatever the identity was; a record that
    came with an identity keeps it. *)
Theorem Create_reports_assigned_unconditionally
  (c : dropletExternal) (now : Z) (cr : v1alpha1.Droplet)
  (d : godo.Droplet) (response : option godo.Response) :
  godo.Create (Droplets c) (createRequest GenerateDroplet cr) = (Some d, response, None) ->
  result (Create GenerateDroplet c now (IsDroplet cr))
  = Done ({| managed.ExternalNameAssigned := true;
             managed.CreationConnectionDetails := ∅ |}, None)
  /\ (v1alpha1.GetExternalName cr <> "" ->
      exists cr' : v1alpha1.Droplet,
        object (Create GenerateDroplet c now (IsDroplet cr)) = IsDroplet cr'
        /\ v1alpha1.ObjectMeta cr' = v1alpha1.ObjectMeta cr
        /\ v1alpha1.GetExternalName cr' = v1alpha1.GetExternalName cr).
Proof.
  intros Hcreate.
  unfold Create. unfold_pass. cbn.
  change (createRequest GenerateDroplet
            (v1alpha1.SetConditions [xpv1.Creating now] cr))
    with (createRequest GenerateDroplet cr).
  rewrite Hcreate. cbn.
  change (v1alpha1.GetExternalName (v1alpha1.SetConditions [xpv1.Creating now] cr))
    with (v1alpha1.GetExternalName cr).
  destruct (String.eqb (v1alpha1.GetExternalName cr) "") eqn:Hname; cbn.
  - split; [reflexivity|]. intros Hne. apply String.eqb_eq in Hname. contradiction.
  - split; [reflexivity|]. intros _. eexists. split; [reflexivity|]. split; reflexivity.
Qed.

(** C4. Observe on a record without identity reports [ResourceExists =
    false] with a nil error, makes no call at all, and hands the record back
    as it was. *)
Theorem Observe_empty_identity
  (c : dropletExternal) (now : Z) (cr : v1alpha1.Droplet) :
  v1alpha1.GetExternalName cr = "" ->
  Observe reportsNotFound LateInitializeSpec c now (IsDroplet cr)
  = {| object := IsDroplet cr;
       made := [];
       result := Done ({| managed.ResourceExists := false;
                          managed.ResourceUpToDate := false;
                          managed.ObservationConnectionDetails := ∅ |}, None) |}.
Proof.
  intros Hempty. unfold Observe. unfold_pass. cbn.
  rewrite (eqb_identity_empty cr Hempty). reflexivity.
Qed.

(** C9. Update, on a record of any kind: a nil error, the empty
    [ExternalUpdate], no call, and the record as it was. *)
Theorem Update_is_noop (mg : Managed) :
  result (Update mg) = Done ({| managed.UpdateConnectionDetails := ∅ |}, None)
  /\ made (Update mg) = []
  /\ object (Update mg) = mg.
Proof. destruct mg; repeat split. Qed.

(** What Observe does when the provider's get reports an error. *)
Lemma Observe_get_error
  (c : dropletExternal) (now : Z) (cr : v1alpha1.Droplet)
  (observed : option godo.Droplet) (response : option godo.Response)
  (e : errors.error) :
  v1alpha1.GetExternalName cr <> "" ->
  godo.Get (Droplets c) (externalID cr) = (observed, response, Some e) ->
  Observe reportsNotFound LateInitializeSpec c now (IsDroplet cr)
  = {| object := IsDroplet cr;
       made := [CallGet (externalID cr)];
       result := Done (zeroObservation,
                       errors.Wrap (IgnoreNotFound reportsNotFound (Some e) response)
                         errGetDroplet) |}.
Proof.
  intros Hne Hget. unfold Observe. unfold_pass. cbn.
  rewrite (eqb_identity_nonempty cr Hne). cbn. rewrite Hget. reflexivity.
Qed.

(** What Delete does on a Droplet record. *)
Lemma Delete_droplet
  (c : dropletExternal) (now : Z) (cr : v1alpha1.Droplet)
  (response : option godo.Response) (err : option errors.error) :
  let dropletID :=
    v1alpha1.DropletObservation.ID (v1alpha1.AtProvider (v1alpha1.Status cr)) in
  godo.Delete (Droplets c) dropletID = (response, err) ->
  Delete reportsNotFound c now (IsDroplet cr)
  = {| object := IsDroplet (v1alpha1.SetConditions [xpv1.Deleting now] cr);
       made := [CallDelete dropletID];
       result := Done (errors.Wrap (IgnoreNotFound reportsNotFound err response)
                         errDropletDeleteFailed) |}.
Proof.
  intros dropletID Hdelete. unfold Delete. unfold_pass. cbn.
  fold dropletID. rewrite Hdelete. reflexivity.
Qed.

(** C3. Not found is no error, in Observe and in Delete: when the provider's
    answer is an error that is recognised as "not found", Observe (on a
    record with an identity) returns [ResourceExists = false] and a nil
    error, and Delete returns a nil error. *)
Theorem not_found_is_no_error
  (c : dropletExternal) (now : Z) (cr : v1alpha1.Droplet)
  (response : option godo.Response) (e : errors.error) :
  reportsNotFound e response = true ->
  (forall observed : option godo.Droplet,
     v1alpha1.GetExternalName cr <> "" ->
     godo.Get (Droplets c) (externalID cr) = (observed, response, Some e) ->
     result (Observe reportsNotFound LateInitializeSpec c now (IsDroplet cr))
     = Done ({| managed.ResourceExists := false;
                managed.ResourceUpToDate := false;
                managed.ObservationConnectionDetails := ∅ |}, None))
  /\ (godo.Delete (Droplets c)
        (v1alpha1.DropletObservation.ID (v1alpha1.AtProvider (v1alpha1.Status cr)))
      = (response, Some e) ->
      result (Delete reportsNotFound c now (IsDroplet cr)) = Done None).
Proof.
  intros Hnf. split.
  - intros observed Hne Hget.
    rewrite (Observe_get_error c now cr observed response e Hne Hget). cbn.
    rewrite Hnf. reflexivity.
  - intros Hdelete.
    rewrite (Delete_droplet c now cr response (Some e) Hdelete). cbn.
    rewrite Hnf. reflexivity.
Qed.

(** What Observe does when the provider's get returns an instance and no
    error: the late initialization, the persist call if it changed the
    parameters, and, unless the persist failed, the observation and the
    switch on the status. *)
Lemma Observe_found
  (c : dropletExternal) (now : Z) (cr : v1alpha1.Droplet)
  (observed : godo.Droplet) (response : option godo.Response) :
  v1alpha1.GetExternalName cr <> "" ->
  godo.Get (Droplets c) (externalID cr) = (Some observed, response, None) ->
  let merged := lateInitialized LateInitializeSpec cr observed in
  let changed :=
    negb (cmpEqual (v1alpha1.ForProvider (v1alpha1.Spec cr))
            (v1alpha1.ForProvider (v1alpha1.Spec merged))) in
  Observe reportsNotFound LateInitializeSpec c now (IsDroplet cr)
  = match (if changed then client.Update (kube c) merged else None) with
    | Some e =>
        {| object := IsDroplet merged;
           made := [CallGet (externalID cr); CallKubeUpdate merged];
           result := Done (zeroObservation, Some (errors.withMessage e errDropletUpdate)) |}
    | None =>
        {| object :=
             IsDroplet (switchStatus now
                          (v1alpha1.withAtProvider (observation observed) merged));
           made := CallGet (externalID cr)
                   :: (if changed then [CallKubeUpdate merged] else []);
           result := Done ({| managed.ResourceExists := true;
                              managed.ResourceUpToDate := true;
                              managed.ObservationConnectionDetails := ∅ |}, None) |}
    end.
Proof.
  intros Hne Hget merged changed.
  change (v1alpha1.ForProvider (v1alpha1.Spec merged))
    with (LateInitializeSpec (v1alpha1.ForProvider (v1alpha1.Spec cr)) observed)
    in changed.
  unfold Observe. unfold_pass. cbn.
  rewrite (eqb_identity_nonempty cr Hne). cbn. rewrite Hget. cbn.
  unfold v1alpha1.DeepCopy. subst changed.
  destruct (cmpEqual _ _); cbn.
  - reflexivity.
  - fold merged. destruct (client.Update (kube c) merged) as [e|]; reflexivity.
Qed.

(** C5. Status-to-condition mapping.  After an Observe that found the
    instance and returned without error: status "new" makes the Ready
    condition Creating, status "active" makes it Available, and every other
    status leaves the conditions exactly as they were.  So a Ready condition
    that was Available stays Available under every status but "new". *)
Theorem Observe_status_to_condition
  (c : dropletExternal) (now : Z) (cr : v1alpha1.Droplet)
  (observed : godo.Droplet) (response : option godo.Response)
  (o : managed.ExternalObservation) :
  v1alpha1.GetExternalName cr <> "" ->
  godo.Get (Droplets c) (externalID cr) = (Some observed, response, None) ->
  result (Observe reportsNotFound LateInitializeSpec c now (IsDroplet cr)) = Done (o, None) ->
  exists cr' : v1alpha1.Droplet,
    object (Observe reportsNotFound LateInitializeSpec c now (IsDroplet cr)) = IsDroplet cr'
    /\ managed.ResourceExists o = true
    /\ (godo.Status observed = "new" ->
        xpv1.Equal (v1alpha1.GetCondition xpv1.TypeReady cr') (xpv1.Creating now) = true)
    /\ (godo.Status observed = "active" ->
        xpv1.Equal (v1alpha1.GetCondition xpv1.TypeReady cr') (xpv1.Available now) = true)
    /\ (godo.Status observed <> "new" -> godo.Status observed <> "active" ->
        v1alpha1.ResourceStatus (v1alpha1.Status cr')
        = v1alpha1.ResourceStatus (v1alpha1.Status cr))
    /\ (godo.Status observed <> "new" ->
        xpv1.Equal (v1alpha1.GetCondition xpv1.TypeReady cr) (xpv1.Available now) = true ->
        xpv1.Equal (v1alpha1.GetCondition xpv1.TypeReady cr') (xpv1.Available now) = true).
Proof.
  intros Hne Hget.
  rewrite (Observe_found c now cr observed response Hne Hget). cbv zeta.
  destruct (if negb _ then _ else _) as [e|]; cbn [result object]; [discriminate|].
  intros Hresult. injection Hresult as <-.
  eexists. split; [reflexivity|]. split; [reflexivity|].
  unfold switchStatus. cbn [v1alpha1.withAtProvider v1alpha1.Status v1alpha1.AtProvider
    observation v1alpha1.DropletObservation.Status].
  unfold v1alpha1.StatusNew, v1alpha1.StatusActive.
  destruct (String.eqb_spec (godo.Status observed) "new") as [Hnew|Hnew].
  - split; [|split; [|split]].
    + intros _. apply (GetCondition_SetCondition _ (xpv1.Creating now)).
    + intros Hactive. congruence.
    + intros Hn. contradiction.
    + intros Hn. contradiction.
  - destruct (String.eqb_spec (godo.Status observed) "active") as [Hactive|Hactive].
    + split; [|split; [|split]].
      * intros Hn. contradiction.
      * intros _. apply (GetCondition_SetCondition _ (xpv1.Available now)).
      * intros _ Hn. contradiction.
      * intros _ _. apply (GetCondition_SetCondition _ (xpv1.Available now)).
    + split; [|split; [|split]].
      * intros Hn. contradiction.
      * intros Hn. contradiction.
      * intros _ _. reflexivity.
      * intros _ Hready. exact Hready.
Qed.

(** C7. Late-initialization persistence.  After a get that returned an
    instance and no error: if the late initialization changed the parameters
    (against the copy taken before it), Observe calls the store's update
    right after the get, with the late-initialized record, whose status is
    still the one Observe was entered with; if that update fails with [e],
    Observe returns [e] wrapped as [errDropletUpdate] and goes no further.
    If the late initialization changed nothing, the get is the only call. *)
Theorem Observe_late_init_persist
  (c : dropletExternal) (now : Z) (cr : v1alpha1.Droplet)
  (observed : godo.Droplet) (response : option godo.Response) :
  v1alpha1.GetExternalName cr <> "" ->
  godo.Get (Droplets c) (externalID cr) = (Some observed, response, None) ->
  let currentSpec := v1alpha1.DeepCopy (v1alpha1.ForProvider (v1alpha1.Spec cr)) in
  let merged := lateInitialized LateInitializeSpec cr observed in
  let out := Observe reportsNotFound LateInitializeSpec c now (IsDroplet cr) in
  (v1alpha1.ForProvider (v1alpha1.Spec merged) <> currentSpec ->
     made out = [CallGet (externalID cr); CallKubeUpdate merged]
     /\ v1alpha1.Status merged = v1alpha1.Status cr
     /\ forall e : errors.error,
          client.Update (kube c) merged = Some e ->
          result out = Done (zeroObservation, Some (errors.withMessage e errDropletUpdate))
          /\ object out = IsDroplet merged)
  /\ (v1alpha1.ForProvider (v1alpha1.Spec merged) = currentSpec ->
      made out = [CallGet (externalID cr)]).
Proof.
  intros Hne Hget currentSpec merged out. subst out.
  rewrite (Observe_found c now cr observed response Hne Hget). cbv zeta.
  fold merged. unfold cmpEqual. subst currentSpec. unfold v1alpha1.DeepCopy.
  split.
  - intros Hchanged. rewrite bool_decide_eq_false_2 by congruence. cbn [negb].
    destruct (client.Update (kube c) merged) as [e'|] eqn:Hupdate; cbn [made result object].
    + split; [reflexivity|]. split; [reflexivity|].
      intros e He. injection He as <-. split; reflexivity.
    + split; [reflexivity|]. split; [reflexivity|]. intros e He. discriminate.
  - intros Hsame. rewrite bool_decide_eq_true_2 by congruence. reflexivity.
Qed.

(** Observe panics when the get returns neither an instance nor an error. *)
Lemma Observe_nil_instance
  (c : dropletExternal) (now : Z) (cr : v1alpha1.Droplet)
  (response : option godo.Response) :
  v1alpha1.GetExternalName cr <> "" ->
  godo.Get (Droplets c) (externalID cr) = (None, response, None) ->
  Observe reportsNotFound LateInitializeSpec c now (IsDroplet cr)
  = {| object := IsDroplet cr; made := [CallGet (externalID cr)]; result := Panicked |}.
Proof.
  intros Hne Hget. unfold Observe. unfold_pass. cbn.
  rewrite (eqb_identity_nonempty cr Hne). cbn. rewrite Hget. reflexivity.
Qed.

(** C8. Sentinel fallback.  On a record whose identity is not empty and does
    not parse, Observe asks the provider for the instance with ID 0, and
    that is its first call.  If it returns an error, then either the get
    returned an error that is not "not found", or the get returned an
    instance and the store refused the late-initialized record. *)
Theorem Observe_sentinel_fallback
  (c : dropletExternal) (now : Z) (cr : v1alpha1.Droplet) :
  v1alpha1.GetExternalName cr <> "" ->
  strconv.Atoi (v1alpha1.GetExternalName cr) = None ->
  let out := Observe reportsNotFound LateInitializeSpec c now (IsDroplet cr) in
  externalID cr = 0
  /\ (exists rest : list Call, made out = CallGet 0 :: rest)
  /\ forall (o : managed.ExternalObservation) (e : errors.error),
       result out = Done (o, Some e) ->
       (exists observed response e0,
          godo.Get (Droplets c) 0 = (observed, response, Some e0)
          /\ reportsNotFound e0 response = false
          /\ e = errors.withMessage e0 errGetDroplet)
       \/ (exists observed response e1,
             godo.Get (Droplets c) 0 = (Some observed, response, None)
             /\ client.Update (kube c) (lateInitialized LateInitializeSpec cr observed)
                = Some e1
             /\ e = errors.withMessage e1 errDropletUpdate).
Proof.
  intros Hne Hparse out.
  assert (Hid : externalID cr = 0) by (unfold externalID; rewrite Hparse; reflexivity).
  split; [exact Hid|]. subst out.
  destruct (godo.Get (Droplets c) (externalID cr)) as [[observed response] err] eqn:Hget.
  destruct err as [e0|]; [|destruct observed as [observed|]].
  - rewrite (Observe_get_error c now cr observed response e0 Hne Hget).
    rewrite Hid in *. cbn [made result].
    split; [eexists; reflexivity|]. intros o e He. left.
    exists observed, response, e0. split; [exact Hget|].
    cbn in He. destruct (reportsNotFound e0 response); [discriminate|].
    split; [reflexivity|]. cbn in He. congruence.
  - rewrite (Observe_found c now cr observed response Hne Hget). cbv zeta.
    rewrite Hid in *.
    destruct (negb _) eqn:Hchanged.
    + destruct (client.Update (kube c) _) as [e1|] eqn:Hupdate; cbn [made result].
      * split; [eexists; reflexivity|]. intros o e He. right.
        exists observed, response, e1. split; [exact Hget|].
        split; [exact Hupdate|congruence].
      * split; [eexists; reflexivity|]. intros o e He. discriminate.
    + cbn [made result]. split; [eexists; reflexivity|]. intros o e He. discriminate.
  - rewrite (Observe_nil_instance c now cr response Hne Hget).
    rewrite Hid. cbn [made result].
    split; [eexists; reflexivity|]. intros o e He. discriminate.
Qed.

(** ** The identity under the operations *)

Lemma Atoi_nonempty (s : string) (n : Z) : strconv.Atoi s = Some n -> s <> "".
Proof. intros Hparse ->. discriminate. Qed.

Lemma identity_switchStatus (now : Z) (cr : v1alpha1.Droplet) :
  v1alpha1.GetExternalName (switchStatus now cr) = v1alpha1.GetExternalName cr.
Proof.
  unfold switchStatus.
  destruct (String.eqb _ v1alpha1.StatusNew); [reflexivity|].
  destruct (String.eqb _ v1alpha1.StatusActive); reflexivity.
Qed.

(** Observe never writes the identity. *)
Lemma identity_Observe (c : dropletExternal) (now : Z) (mg : Managed) :
  identity (object (Observe reportsNotFound LateInitializeSpec c now mg)) = identity mg.
Proof.
  destruct mg as [cr|kind o]; [|reflexivity].
  destruct (String.eqb_spec (v1alpha1.GetExternalName cr) "") as [Hempty|Hne].
  - unfold Observe. unfold_pass. cbn. rewrite (eqb_identity_empty cr Hempty). reflexivity.
  - destruct (godo.Get (Droplets c) (externalID cr)) as [[observed response] err] eqn:Hget.
    destruct err as [e|]; [|destruct observed as [observed|]].
    + rewrite (Observe_get_error c now cr observed response e Hne Hget). reflexivity.
    + rewrite (Observe_found c now cr observed response Hne Hget). cbv zeta.
      destruct (if negb _ then _ else _) as [e|]; cbn [object identity].
      * reflexivity.
      * rewrite identity_switchStatus. reflexivity.
    + rewrite (Observe_nil_instance c now cr response Hne Hget). reflexivity.
Qed.

(** Create writes the identity only where it finds none. *)
Lemma identity_Create (c : dropletExternal) (now : Z) (mg : Managed) :
  identity mg <> "" ->
  identity (object (Create GenerateDroplet c now mg)) = identity mg.
Proof.
  destruct mg as [cr|kind o]; [|reflexivity]. cbn [identity]. intros Hne.
  unfold Create. unfold_pass. cbn.
  change (createRequest GenerateDroplet
            (v1alpha1.SetConditions [xpv1.Creating now] cr))
    with (createRequest GenerateDroplet cr).
  destruct (godo.Create (Droplets c) (createRequest GenerateDroplet cr))
    as [[droplet response] err].
  destruct err as [e|]; [reflexivity|]. destruct droplet as [d|]; [|reflexivity].
  change (v1alpha1.GetExternalName (v1alpha1.SetConditions [xpv1.Creating now] cr))
    with (v1alpha1.GetExternalName cr).
  rewrite (eqb_identity_nonempty cr Hne). reflexivity.
Qed.

(** Delete never writes the identity. *)
Lemma identity_Delete (c : dropletExternal) (now : Z) (mg : Managed) :
  identity (object (Delete reportsNotFound c now mg)) = identity mg.
Proof.
  destruct mg as [cr|kind o]; [|reflexivity].
  destruct (godo.Delete (Droplets c)
              (v1alpha1.DropletObservation.ID (v1alpha1.AtProvider (v1alpha1.Status cr))))
    as [response err] eqn:Hdelete.
  rewrite (Delete_droplet c now cr response err Hdelete). reflexivity.
Qed.

Lemma identity_after (op : Operation) (c : dropletExternal) (now : Z) (mg : Managed) :
  (op = OpCreate -> identity mg <> "") ->
  identity (after reportsNotFound LateInitializeSpec GenerateDroplet op c now mg)
  = identity mg.
Proof.
  intros Hguard. destruct op; cbn [after].
  - apply identity_Observe.
  - apply identity_Create. apply Hguard. reflexivity.
  - reflexivity.
  - apply identity_Delete.
Qed.

(** C6. Monotonic identity.  An identity that parses as a number is left as
    it is by every operation, and so by every sequence of operations: it
    never becomes non-numeric.  In general an operation leaves the identity
    of any record as it is, unless the operation is Create and the identity
    is empty. *)
Theorem identity_stays_numeric (mg : Managed) (n : Z) :
  strconv.Atoi (identity mg) = Some n ->
  (forall (op : Operation) (c : dropletExternal) (now : Z),
     identity (after reportsNotFound LateInitializeSpec GenerateDroplet op c now mg)
     = identity mg)
  /\ (forall steps : list (Operation * dropletExternal * Z),
        identity (reconcile reportsNotFound LateInitializeSpec GenerateDroplet steps mg)
        = identity mg
        /\ strconv.Atoi
             (identity (reconcile reportsNotFound LateInitializeSpec GenerateDroplet steps mg))
           = Some n)
  /\ (forall (op : Operation) (c : dropletExternal) (now : Z) (mg' : Managed),
        (op = OpCreate -> identity mg' <> "") ->
        identity (after reportsNotFound LateInitializeSpec GenerateDroplet op c now mg')
        = identity mg').
Proof.
  intros Hnumeric. split; [|split].
  - intros op c now. apply identity_after. intros _.
    exact (Atoi_nonempty _ _ Hnumeric).
  - intros steps. revert mg Hnumeric.
    induction steps as [|[[op c] now] rest IH]; intros mg Hnumeric.
    + split; [reflexivity|exact Hnumeric].
    + cbn [reconcile].
      assert (Hstep : identity (after reportsNotFound LateInitializeSpec GenerateDroplet
                                  op c now mg) = identity mg).
      { apply identity_after. intros _. exact (Atoi_nonempty _ _ Hnumeric). }
      destruct (IH (after reportsNotFound LateInitializeSpec GenerateDroplet op c now mg))
        as [Hid Hparse]; [rewrite Hstep; exact Hnumeric|].
      split; [rewrite Hid; exact Hstep|exact Hparse].
  - intros op c now mg'. apply identity_after.
Qed.

End Properties.

(** ** The theorems at concrete records and providers *)

(** C1 at the record of the end-to-end scenario: Create on the fresh record,
    at a provider that creates instance 123456. *)
Lemma Create_identity_handoff_witness :
  exists cr' : v1alpha1.Droplet,
    object (Create Example.generateDroplet
              {| kube := Example.accepting;
                 Droplets := Example.holding (Example.instance 123456 "new" "") |}
              10 (IsDroplet Example.fresh)) = IsDroplet cr'
    /\ v1alpha1.GetExternalName cr' = strconv.Itoa 123456
    /\ strconv.Atoi (v1alpha1.GetExternalName cr') = Some 123456
    /\ result (Create Example.generateDroplet
                 {| kube := Example.accepting;
                    Droplets := Example.holding (Example.instance 123456 "new" "") |}
                 10 (IsDroplet Example.fresh))
       = Done ({| managed.ExternalNameAssigned := true;
                  managed.CreationConnectionDetails := ∅ |}, None).
Proof.
  apply (Create_identity_handoff Example.generateDroplet
           {| kube := Example.accepting;
              Droplets := Example.holding (Example.instance 123456 "new" "") |}
           10 Example.fresh (Example.instance 123456 "new" "") (Example.response 202)).
  - reflexivity.
  - reflexivity.
  - split; vm_compute; discriminate.
Defined.

(** C3 at an account that holds instance 123456 only, for a record that
    names instance 999. *)
Lemma not_found_is_no_error_witness :
  result (Observe Example.statusNotFound Example.lateInitialize
            {| kube := Example.accepting;
               Droplets := Example.holding (Example.instance 123456 "active" "") |}
            10 (IsDroplet (Example.named "999" [] 999)))
  = Done ({| managed.ResourceExists := false;
             managed.ResourceUpToDate := false;
             managed.ObservationConnectionDetails := ∅ |}, None)
  /\ result (Delete Example.statusNotFound
               {| kube := Example.accepting;
                  Droplets := Example.holding (Example.instance 123456 "active" "") |}
               10 (IsDroplet (Example.named "999" [] 999)))
     = Done None.
Proof.
  destruct (not_found_is_no_error Example.statusNotFound Example.lateInitialize
              {| kube := Example.accepting;
                 Droplets := Example.holding (Example.instance 123456 "active" "") |}
              10 (Example.named "999" [] 999) (Example.response 404) Example.notFound
              eq_refl) as [Hobserve Hdelete].
  split.
  - apply (Hobserve None); [intros H; vm_compute in H; discriminate H|reflexivity].
  - apply Hdelete. reflexivity.
Defined.

(** C4 at the fresh record: no call, although the provider would answer. *)
Lemma Observe_empty_identity_witness :
  Observe Example.statusNotFound Example.lateInitialize
    {| kube := Example.accepting;
       Droplets := Example.holding (Example.instance 123456 "active" "") |}
    10 (IsDroplet Example.fresh)
  = {| object := IsDroplet Example.fresh;
       made := [];
       result := Done ({| managed.ResourceExists := false;
                          managed.ResourceUpToDate := false;
                          managed.ObservationConnectionDetails := ∅ |}, None) |}.
Proof.
  apply (Observe_empty_identity Example.statusNotFound Example.lateInitialize).
  reflexivity.
Defined.

(** C5 on the claim as it is stated: a record whose Ready condition is
    Available is observed with status "new", which is not "active"; Observe
    succeeds, and the Ready condition is Creating, no longer Available. *)
Lemma Observe_new_regresses_Available :
  let observed := Example.instance 123456 "new" "" in
  let cr := Example.named "123456" [xpv1.Available 10] 123456 in
  let out :=
    Observe Example.statusNotFound Example.lateInitialize
      {| kube := Example.accepting; Droplets := Example.holding observed |}
      20 (IsDroplet cr) in
  godo.Status observed <> "active"
  /\ xpv1.Equal (v1alpha1.GetCondition xpv1.TypeReady cr) (xpv1.Available 20) = true
  /\ result out = Done ({| managed.ResourceExists := true;
                           managed.ResourceUpToDate := true;
                           managed.ObservationConnectionDetails := ∅ |}, None)
  /\ exists cr' : v1alpha1.Droplet,
       object out = IsDroplet cr'
       /\ v1alpha1.ResourceStatus (v1alpha1.Status cr')
          = {| xpv1.Conditions := [xpv1.Creating 20] |}
       /\ xpv1.Equal (v1alpha1.GetCondition xpv1.TypeReady cr') (xpv1.Available 20) = false.
Proof.
  cbv zeta. split; [discriminate|]. split; [reflexivity|]. split; [reflexivity|].
  eexists. split; [reflexivity|]. split; reflexivity.
Qed.

(** C5 at the scenario of the spec: the instance went from active to off. *)
Lemma Observe_status_to_condition_witness :
  exists cr' : v1alpha1.Droplet,
    object (Observe Example.statusNotFound Example.lateInitialize
              {| kube := Example.accepting;
                 Droplets := Example.holding (Example.instance 123456 "off" "") |}
              20 (IsDroplet (Example.named "123456" [xpv1.Available 10] 123456)))
    = IsDroplet cr'
    /\ v1alpha1.ResourceStatus (v1alpha1.Status cr')
       = {| xpv1.Conditions := [xpv1.Available 10] |}
    /\ xpv1.Equal (v1alpha1.GetCondition xpv1.TypeReady cr') (xpv1.Available 20) = true.
Proof.
  destruct (Observe_status_to_condition Example.statusNotFound Example.lateInitialize
              {| kube := Example.accepting;
                 Droplets := Example.holding (Example.instance 123456 "off" "") |}
              20 (Example.named "123456" [xpv1.Available 10] 123456)
              (Example.instance 123456 "off" "") (Example.response 200)
              {| managed.ResourceExists := true;
                 managed.ResourceUpToDate := true;
                 managed.ObservationConnectionDetails := ∅ |})
    as (cr' & Hobject & _ & _ & _ & Hother & Hkeep).
  - intros H; vm_compute in H; discriminate H.
  - reflexivity.
  - reflexivity.
  - exists cr'. split; [exact Hobject|]. split.
    + apply Hother; discriminate.
    + apply Hkeep; [discriminate|reflexivity].
Defined.

(** C6 at a record with identity "123456", through an Observe, a Create that
    the provider answers with another instance, an Update and a Delete. *)
Lemma identity_stays_numeric_witness :
  let c := {| kube := Example.accepting;
              Droplets := Example.holding (Example.instance 777 "active" "vpc-1") |} in
  identity (reconcile Example.statusNotFound Example.lateInitialize
              Example.generateDroplet
              [(OpObserve, c, 10); (OpCreate, c, 20); (OpUpdate, c, 30); (OpDelete, c, 40)]
              (IsDroplet (Example.named "123456" [] 123456)))
  = "123456".
Proof.
  cbv zeta.
  destruct (identity_stays_numeric Example.statusNotFound Example.lateInitialize
              Example.generateDroplet
              (IsDroplet (Example.named "123456" [] 123456)) 123456 eq_refl)
    as (_ & Hsteps & _).
  destruct (Hsteps
              [(OpObserve,
                {| kube := Example.accepting;
                   Droplets := Example.holding (Example.instance 777 "active" "vpc-1") |},
                10);
               (OpCreate,
                {| kube := Example.accepting;
                   Droplets := Example.holding (Example.instance 777 "active" "vpc-1") |},
                20);
               (OpUpdate,
                {| kube := Example.accepting;
                   Droplets := Example.holding (Example.instance 777 "active" "vpc-1") |},
                30);
               (OpDelete,
                {| kube := Example.accepting;
                   Droplets := Example.holding (Example.instance 777 "active" "vpc-1") |},
                40)])
    as [Hid _].
  exact Hid.
Defined.

(** C7 at a record without VPC reference, an instance in a VPC, and a store
    that refuses the update. *)
Lemma Observe_late_init_persist_witness :
  let cr := Example.named "123456" [] 0 in
  let observed := Example.instance 123456 "active" "vpc-1" in
  let merged := lateInitialized Example.lateInitialize cr observed in
  let out :=
    Observe Example.statusNotFound Example.lateInitialize
      {| kube := Example.refusing; Droplets := Example.holding observed |}
      10 (IsDroplet cr) in
  made out = [CallGet 123456; CallKubeUpdate merged]
  /\ result out
     = Done (zeroObservation, Some (errors.withMessage Example.conflict errDropletUpdate))
  /\ object out = IsDroplet merged.
Proof.
  cbv zeta.
  destruct (Observe_late_init_persist Example.statusNotFound Example.lateInitialize
              {| kube := Example.refusing;
                 Droplets := Example.holding (Example.instance 123456 "active" "vpc-1") |}
              10 (Example.named "123456" [] 0)
              (Example.instance 123456 "active" "vpc-1") (Example.response 200))
    as [Hchanged _].
  - intros H; vm_compute in H; discriminate H.
  - reflexivity.
  - destruct Hchanged as (Hmade & _ & Hfail).
    + intros H; vm_compute in H; discriminate H.
    + destruct (Hfail Example.conflict eq_refl) as [Hresult Hobject].
      split; [exact Hmade|]. split; [exact Hresult|exact Hobject].
Defined.

(** C8 on the claim as it is stated: the identity "web-1" does not parse,
    the provider's get of ID 0 returns an instance and no error, and Observe
    fails all the same, because the store refuses the late-initialized
    record. *)
Lemma Observe_sentinel_fails_without_get_failure :
  let cr := Example.named "web-1" [] 0 in
  let c := {| kube := Example.refusing;
              Droplets := Example.holding (Example.instance 0 "active" "vpc-1") |} in
  v1alpha1.GetExternalName cr <> ""
  /\ strconv.Atoi (v1alpha1.GetExternalName cr) = None
  /\ godo.Get (Droplets c) 0
     = (Some (Example.instance 0 "active" "vpc-1"), Example.response 200, None)
  /\ Observe Example.statusNotFound Example.lateInitialize c 10 (IsDroplet cr)
     = {| object := IsDroplet (lateInitialized Example.lateInitialize cr
                                 (Example.instance 0 "active" "vpc-1"));
          made := [CallGet 0;
                   CallKubeUpdate (lateInitialized Example.lateInitialize cr
                                     (Example.instance 0 "active" "vpc-1"))];
          result := Done (zeroObservation,
                          Some (errors.withMessage Example.conflict errDropletUpdate)) |}.
Proof.
  cbv zeta. split; [intros H; vm_compute in H; discriminate H|].
  split; [reflexivity|]. split; reflexivity.
Qed.

(** C8 at the record with identity "web-1" and a provider that is out of
    service. *)
Lemma Observe_sentinel_fallback_witness :
  let out :=
    Observe Example.statusNotFound Example.lateInitialize
      {| kube := Example.accepting; Droplets := Example.creating (None, None, None) |}
      10 (IsDroplet (Example.named "web-1" [] 0)) in
  (exists rest : list Call, made out = CallGet 0 :: rest)
  /\ result out
     = Done (zeroObservation, Some (errors.withMessage Example.unavailable errGetDroplet)).
Proof.
  cbv zeta.
  destruct (Observe_sentinel_fallback Example.statusNotFound Example.lateInitialize
              {| kube := Example.accepting;
                 Droplets := Example.creating (None, None, None) |}
              10 (Example.named "web-1" [] 0))
    as (_ & Hfirst & _).
  - intros H; vm_compute in H; discriminate H.
  - reflexivity.
  - split; [exact Hfirst|reflexivity].
Defined.

(** The branch behind the guard, at a record that came with the identity
    "web-1". *)
Lemma Create_reports_assigned_unconditionally_witness :
  result (Create Example.generateDroplet
            {| kube := Example.accepting;
               Droplets := Example.holding (Example.instance 123456 "new" "") |}
            10 (IsDroplet (Example.named "web-1" [] 0)))
  = Done ({| managed.ExternalNameAssigned := true;
             managed.CreationConnectionDetails := ∅ |}, None)
  /\ identity (object (Create Example.generateDroplet
                         {| kube := Example.accepting;
                            Droplets := Example.holding (Example.instance 123456 "new" "") |}
                         10 (IsDroplet (Example.named "web-1" [] 0))))
     = "web-1".
Proof.
  destruct (Create_reports_assigned_unconditionally Example.generateDroplet
              {| kube := Example.accepting;
                 Droplets := Example.holding (Example.instance 123456 "new" "") |}
              10 (Example.named "web-1" [] 0)
              (Example.instance 123456 "new" "") (Example.response 202) eq_refl)
    as [Hresult Hkept].
  split; [exact Hresult|].
  destruct Hkept as (cr' & Hobject & _ & Hid).
  - intros H; vm_compute in H; discriminate H.
  - rewrite Hobject. cbn [identity]. rewrite Hid. reflexivity.
Defined.

(** ** The end-to-end scenario *)

(** A fresh record is observed (absent), created (identity "123456"),
    observed again (active: Available, up to date) and deleted by the
    observed ID; a second delete, at a provider that no longer knows the
    instance, succeeds as well. *)
Example end_to_end :
  let c := {| kube := Example.accepting;
              Droplets := Example.holding (Example.instance 123456 "active" "") |} in
  let gone := {| kube := Example.accepting;
                 Droplets := Example.holding (Example.instance 1 "active" "") |} in
  let observe1 :=
    Observe Example.statusNotFound Example.lateInitialize c 1 (IsDroplet Example.fresh) in
  let create := Create Example.generateDroplet c 2 (object observe1) in
  let observe2 :=
    Observe Example.statusNotFound Example.lateInitialize c 3 (object create) in
  let delete1 := Delete Example.statusNotFound c 4 (object observe2) in
  let delete2 := Delete Example.statusNotFound gone 5 (object delete1) in
  (made observe1 = [] /\ result observe1 = Done (zeroObservation, None))
  /\ (identity (object create) = "123456"
      /\ result create = Done ({| managed.ExternalNameAssigned := true;
                                  managed.CreationConnectionDetails := ∅ |}, None))
  /\ (made observe2 = [CallGet 123456]
      /\ result observe2 = Done ({| managed.ResourceExists := true;
                                    managed.ResourceUpToDate := true;
                                    managed.ObservationConnectionDetails := ∅ |}, None)
      /\ (exists cr : v1alpha1.Droplet,
            object observe2 = IsDroplet cr
            /\ v1alpha1.GetCondition xpv1.TypeReady cr = xpv1.Available 3))
  /\ (made delete1 = [CallDelete 123456] /\ result delete1 = Done None)
  /\ (made delete2 = [CallDelete 123456] /\ result delete2 = Done None).
Proof.
  cbv zeta. repeat split. eexists. split; reflexivity.
Qed.

(** * Further properties of the operations *)

(** ** Conditions, continued *)

Lemma Equal_trans (a b c : xpv1.Condition) :
  xpv1.Equal a b = true -> xpv1.Equal b c = true -> xpv1.Equal a c = true.
Proof.
  unfold xpv1.Equal. rewrite !andb_true_iff, !String.eqb_eq.
  intros [[[-> ->] ->] ->] [[[-> ->] ->] ->]. repeat split.
Qed.

Lemma Equal_type (a b : xpv1.Condition) :
  xpv1.Equal a b = true -> xpv1.Type_ a = xpv1.Type_ b.
Proof.
  unfold xpv1.Equal. rewrite !andb_true_iff, !String.eqb_eq. tauto.
Qed.

Lemma find_app_some {A : Type} (p : A -> bool) (l l' : list A) (x : A) :
  List.find p l = Some x -> List.find p (l ++ l') = Some x.
Proof.
  induction l as [|y l IH]; cbn; [discriminate|].
  destruct (p y); [trivial|exact IH].
Qed.

(** The loop of [SetConditions] leaves the conditions of every other type
    where they are. *)
Lemma find_setExisting_other (new : xpv1.Condition) (ct : string)
  (cs : list xpv1.Condition) :
  ct <> xpv1.Type_ new ->
  List.find (fun c => String.eqb (xpv1.Type_ c) ct) (fst (xpv1.setExisting new cs))
  = List.find (fun c => String.eqb (xpv1.Type_ c) ct) cs.
Proof.
  intros Hct. induction cs as [|existing rest IH]; cbn; [reflexivity|].
  destruct (xpv1.setExisting new rest) as [rest' found]. cbn in IH.
  destruct (String.eqb_spec (xpv1.Type_ existing) (xpv1.Type_ new)) as [Htype|Htype]; cbn.
  - assert (Hnew : String.eqb (xpv1.Type_ new) ct = false)
      by (apply String.eqb_neq; congruence).
    assert (Hexisting : String.eqb (xpv1.Type_ existing) ct = false)
      by (apply String.eqb_neq; congruence).
    destruct (xpv1.Equal existing new); cbn; rewrite ?Hnew, ?Hexisting; exact IH.
  - destruct (String.eqb (xpv1.Type_ existing) ct); [reflexivity|exact IH].
Qed.

Lemma GetCondition_SetCondition_other (s : xpv1.ConditionedStatus)
  (new : xpv1.Condition) (ct : string) :
  ct <> xpv1.Type_ new ->
  xpv1.GetCondition (xpv1.SetCondition s new) ct = xpv1.GetCondition s ct.
Proof.
  intros Hct. unfold xpv1.SetCondition, xpv1.GetCondition.
  pose proof (find_setExisting_other new ct (xpv1.Conditions s) Hct) as Hfind.
  destruct (xpv1.setExisting new (xpv1.Conditions s)) as [cs found]. cbn in *.
  destruct found; [rewrite Hfind; reflexivity|].
  destruct (List.find _ (xpv1.Conditions s)) as [x|] eqn:Hx.
  - rewrite (find_app_some _ _ _ _ Hfind). reflexivity.
  - rewrite (find_app_none _ _ _ Hfind). cbn.
    assert (Hnew : String.eqb (xpv1.Type_ new) ct = false)
      by (apply String.eqb_neq; congruence).
    rewrite Hnew. reflexivity.
Qed.

(** After the loop, every condition of the type of [new] equals [new], the
    transition time apart, and the flag tells whether there is one. *)
Lemma setExisting_all_equal (new : xpv1.Condition) (cs : list xpv1.Condition) :
  Forall (fun x => xpv1.Type_ x = xpv1.Type_ new -> xpv1.Equal x new = true)
    (fst (xpv1.setExisting new cs))
  /\ snd (xpv1.setExisting new cs)
     = existsb (fun x => String.eqb (xpv1.Type_ x) (xpv1.Type_ new))
         (fst (xpv1.setExisting new cs)).
Proof.
  induction cs as [|existing rest IH]; cbn; [split; [constructor|reflexivity]|].
  destruct (xpv1.setExisting new rest) as [rest' found]. cbn in IH.
  destruct IH as [IHall IHflag].
  destruct (String.eqb_spec (xpv1.Type_ existing) (xpv1.Type_ new)) as [Htype|Htype]; cbn.
  - destruct (xpv1.Equal existing new) eqn:Hequal; cbn.
    + split; [constructor; [intros _; exact Hequal|exact IHall]|].
      rewrite (proj2 (String.eqb_eq _ _) Htype). reflexivity.
    + split; [constructor; [intros _; apply Equal_refl|exact IHall]|].
      rewrite String.eqb_refl. reflexivity.
  - split; [constructor; [intros H; contradiction|exact IHall]|].
    rewrite (proj2 (String.eqb_neq _ _) Htype). exact IHflag.
Qed.

(** Where every condition of the type of [new] already equals [new], the
    loop changes nothing. *)
Lemma setExisting_fixed (new : xpv1.Condition) (cs : list xpv1.Condition) :
  Forall (fun x => xpv1.Type_ x = xpv1.Type_ new -> xpv1.Equal x new = true) cs ->
  xpv1.setExisting new cs
  = (cs, existsb (fun x => String.eqb (xpv1.Type_ x) (xpv1.Type_ new)) cs).
Proof.
  induction 1 as [|existing rest Hhead Htail IH]; cbn; [reflexivity|].
  rewrite IH.
  destruct (String.eqb_spec (xpv1.Type_ existing) (xpv1.Type_ new)) as [Htype|Htype]; cbn.
  - rewrite (Hhead Htype). reflexivity.
  - reflexivity.
Qed.

(** Setting a condition a second time, with another transition time only,
    changes nothing: the first transition time stays. *)
Lemma SetCondition_again (s : xpv1.ConditionedStatus) (c c' : xpv1.Condition) :
  xpv1.Equal c c' = true ->
  xpv1.SetCondition (xpv1.SetCondition s c) c' = xpv1.SetCondition s c.
Proof.
  intros Hequal. pose proof (Equal_type c c' Hequal) as Htype.
  destruct (setExisting_all_equal c (xpv1.Conditions s)) as [Hall Hflag].
  unfold xpv1.SetCondition.
  destruct (xpv1.setExisting c (xpv1.Conditions s)) as [cs found]. cbn in Hall, Hflag.
  cbn [xpv1.Conditions].
  set (after := if found then cs else (cs ++ [c])%list).
  assert (Hafter : Forall (fun x => xpv1.Type_ x = xpv1.Type_ c' -> xpv1.Equal x c' = true)
                     after).
  { assert (Hcs : Forall (fun x => xpv1.Type_ x = xpv1.Type_ c' -> xpv1.Equal x c' = true) cs).
    { eapply Forall_impl; [exact Hall|]. cbn. intros x Hx Hxt.
      apply (Equal_trans x c c'); [apply Hx; congruence|exact Hequal]. }
    subst after. destruct found; [exact Hcs|].
    apply Forall_app. split; [exact Hcs|]. constructor; [|constructor].
    intros _. exact Hequal. }
  assert (Hexists : existsb (fun x => String.eqb (xpv1.Type_ x) (xpv1.Type_ c')) after = true).
  { subst after. rewrite <- Htype. destruct found.
    - symmetry. exact Hflag.
    - rewrite existsb_app. cbn. rewrite String.eqb_refl.
      rewrite orb_true_r. reflexivity. }
  fold after. rewrite (setExisting_fixed c' after Hafter), Hexists. reflexivity.
Qed.

(** ** The paths through the operations *)

Section Further.

Variable reportsNotFound : errors.error -> option godo.Response -> bool.
Variable LateInitializeSpec :
  v1alpha1.DropletParameters -> godo.Droplet -> v1alpha1.DropletParameters.
Variable GenerateDroplet :
  string -> v1alpha1.DropletParameters -> godo.DropletCreateRequest.t ->
  godo.DropletCreateRequest.t.

(** The six ways through Observe on a Droplet record: no identity; the get
    reports an error; the get returns nothing at all; the get returns an
    instance and the late initialization changes nothing; it changes the
    parameters and the store accepts them; it changes them and the store
    refuses. *)
Lemma Observe_paths (c : dropletExternal) (now : Z) (cr : v1alpha1.Droplet) :
  let out := Observe reportsNotFound LateInitializeSpec c now (IsDroplet cr) in
  (v1alpha1.GetExternalName cr = ""
   /\ out = {| object := IsDroplet cr; made := [];
               result := Done (zeroObservation, None) |})
  \/ (exists observed response e,
        godo.Get (Droplets c) (externalID cr) = (observed, response, Some e)
        /\ out = {| object := IsDroplet cr; made := [CallGet (externalID cr)];
                    result := Done (zeroObservation,
                                    errors.Wrap
                                      (IgnoreNotFound reportsNotFound (Some e) response)
                                      errGetDroplet) |})
  \/ (exists response,
        godo.Get (Droplets c) (externalID cr) = (None, response, None)
        /\ out = {| object := IsDroplet cr; made := [CallGet (externalID cr)];
                    result := Panicked |})
  \/ (exists observed response,
        let merged := lateInitialized LateInitializeSpec cr observed in
        godo.Get (Droplets c) (externalID cr) = (Some observed, response, None)
        /\ v1alpha1.ForProvider (v1alpha1.Spec merged)
           = v1alpha1.ForProvider (v1alpha1.Spec cr)
        /\ out = {| object := IsDroplet (switchStatus now
                                           (v1alpha1.withAtProvider
                                              (observation observed) merged));
                    made := [CallGet (externalID cr)];
                    result := Done ({| managed.ResourceExists := true;
                                       managed.ResourceUpToDate := true;
                                       managed.ObservationConnectionDetails := ∅ |},
                                    None) |})
  \/ (exists observed response,
        let merged := lateInitialized LateInitializeSpec cr observed in
        godo.Get (Droplets c) (externalID cr) = (Some observed, response, None)
        /\ v1alpha1.ForProvider (v1alpha1.Spec merged)
           <> v1alpha1.ForProvider (v1alpha1.Spec cr)
        /\ client.Update (kube c) merged = None
        /\ out = {| object := IsDroplet (switchStatus now
                                           (v1alpha1.withAtProvider
                                              (observation observed) merged));
                    made := [CallGet (externalID cr); CallKubeUpdate merged];
                    result := Done ({| managed.ResourceExists := true;
                                       managed.ResourceUpToDate := true;
                                       managed.ObservationConnectionDetails := ∅ |},
                                    None) |})
  \/ (exists observed response e,
        let merged := lateInitialized LateInitializeSpec cr observed in
        godo.Get (Droplets c) (externalID cr) = (Some observed, response, None)
        /\ v1alpha1.ForProvider (v1alpha1.Spec merged)
           <> v1alpha1.ForProvider (v1alpha1.Spec cr)
        /\ client.Update (kube c) merged = Some e
        /\ out = {| object := IsDroplet merged;
                    made := [CallGet (externalID cr); CallKubeUpdate merged];
                    result := Done (zeroObservation,
                                    Some (errors.withMessage e errDropletUpdate)) |}).
Proof.
  intros out. subst out.
  destruct (String.eqb_spec (v1alpha1.GetExternalName cr) "") as [Hempty|Hne].
  { left. split; [exact Hempty|].
    unfold Observe. unfold_pass. cbn.
    rewrite (eqb_identity_empty cr Hempty). reflexivity. }
  right.
  destruct (godo.Get (Droplets c) (externalID cr)) as [[observed response] err] eqn:Hget.
  destruct err as [e|]; [|destruct observed as [observed|]].
  - left. exists observed, response, e. split; [reflexivity|].
    exact (Observe_get_error reportsNotFound LateInitializeSpec c now cr
             observed response e Hne Hget).
  - right. right.
    rewrite (Observe_found reportsNotFound LateInitializeSpec c now cr
               observed response Hne Hget). cbv zeta.
    unfold cmpEqual.
    destruct (decide (v1alpha1.ForProvider (v1alpha1.Spec cr)
                      = v1alpha1.ForProvider
                          (v1alpha1.Spec (lateInitialized LateInitializeSpec cr observed))))
      as [Hsame|Hchanged].
    + left. exists observed, response. cbv zeta.
      rewrite (bool_decide_eq_true_2 _ Hsame). cbn [negb].
      split; [reflexivity|]. split; [symmetry; exact Hsame|reflexivity].
    + right. rewrite (bool_decide_eq_false_2 _ Hchanged). cbn [negb].
      destruct (client.Update (kube c) _) as [e|] eqn:Hupdate.
      * right. exists observed, response, e. cbv zeta.
        split; [reflexivity|]. split; [congruence|]. split; [exact Hupdate|reflexivity].
      * left. exists observed, response. cbv zeta.
        split; [reflexivity|]. split; [congruence|]. split; [exact Hupdate|reflexivity].
  - right. left. exists response. split; [reflexivity|].
    exact (Observe_nil_instance reportsNotFound LateInitializeSpec c now cr
             response Hne Hget).
Qed.

(** Create when the provider answers with an instance and no error. *)
Lemma Create_success
  (c : dropletExternal) (now : Z) (cr : v1alpha1.Droplet)
  (d : godo.Droplet) (response : option godo.Response) :
  godo.Create (Droplets c) (createRequest GenerateDroplet cr) = (Some d, response, None) ->
  Create GenerateDroplet c now (IsDroplet cr)
  = {| object :=
         IsDroplet (if String.eqb (v1alpha1.GetExternalName cr) ""
                    then v1alpha1.SetExternalName (strconv.Itoa (godo.ID d))
                           (v1alpha1.SetConditions [xpv1.Creating now] cr)
                    else v1alpha1.SetConditions [xpv1.Creating now] cr);
       made := [CallCreate (createRequest GenerateDroplet cr)];
       result := Done ({| managed.ExternalNameAssigned := true;
                          managed.CreationConnectionDetails := ∅ |}, None) |}.
Proof.
  intros Hcreate. unfold Create. unfold_pass. cbn.
  change (createRequest GenerateDroplet
            (v1alpha1.SetConditions [xpv1.Creating now] cr))
    with (createRequest GenerateDroplet cr).
  rewrite Hcreate. cbn.
  change (v1alpha1.GetExternalName (v1alpha1.SetConditions [xpv1.Creating now] cr))
    with (v1alpha1.GetExternalName cr).
  destruct (String.eqb (v1alpha1.GetExternalName cr) ""); reflexivity.
Qed.

(** The two ways through Create on a Droplet record. *)
Lemma Create_paths (c : dropletExternal) (now : Z) (cr : v1alpha1.Droplet) :
  let out := Create GenerateDroplet c now (IsDroplet cr) in
  (exists d response,
     godo.Create (Droplets c) (createRequest GenerateDroplet cr) = (Some d, response, None)
     /\ out = {| object :=
                   IsDroplet (if String.eqb (v1alpha1.GetExternalName cr) ""
                              then v1alpha1.SetExternalName (strconv.Itoa (godo.ID d))
                                     (v1alpha1.SetConditions [xpv1.Creating now] cr)
                              else v1alpha1.SetConditions [xpv1.Creating now] cr);
                 made := [CallCreate (createRequest GenerateDroplet cr)];
                 result := Done ({| managed.ExternalNameAssigned := true;
                                    managed.CreationConnectionDetails := ∅ |}, None) |})
  \/ (exists droplet response err,
        godo.Create (Droplets c) (createRequest GenerateDroplet cr)
        = (droplet, response, err)
        /\ (err <> None \/ droplet = None)
        /\ out = {| object := IsDroplet (v1alpha1.SetConditions [xpv1.Creating now] cr);
                    made := [CallCreate (createRequest GenerateDroplet cr)];
                    result := Done (zeroCreation,
                                    errors.Wrap err errDropletCreateFailed) |}).
Proof.
  intros out. subst out.
  destruct (godo.Create (Droplets c) (createRequest GenerateDroplet cr))
    as [[droplet response] err] eqn:Hcreate.
  destruct err as [e|]; [|destruct droplet as [d|]].
  - right. exists droplet, response, (Some e). split; [reflexivity|].
    split; [left; discriminate|].
    apply (Create_failure GenerateDroplet c now cr droplet response (Some e) Hcreate).
    left. discriminate.
  - left. exists d, response. split; [reflexivity|].
    exact (Create_success c now cr d response Hcreate).
  - right. exists None, response, None. split; [reflexivity|].
    split; [right; reflexivity|].
    apply (Create_failure GenerateDroplet c now cr None response None Hcreate).
    right. reflexivity.
Qed.

(** ** What Observe reports and what it leaves alone *)

Lemma SetConditions_other (c : xpv1.Condition) (ct : string) (cr : v1alpha1.Droplet) :
  ct <> xpv1.Type_ c ->
  v1alpha1.GetCondition ct (v1alpha1.SetConditions [c] cr) = v1alpha1.GetCondition ct cr.
Proof.
  intros Hct. unfold v1alpha1.GetCondition, v1alpha1.SetConditions. cbn.
  apply GetCondition_SetCondition_other. exact Hct.
Qed.

Lemma switchStatus_frame (now : Z) (cr : v1alpha1.Droplet) :
  v1alpha1.ObjectMeta (switchStatus now cr) = v1alpha1.ObjectMeta cr
  /\ v1alpha1.Spec (switchStatus now cr) = v1alpha1.Spec cr
  /\ v1alpha1.AtProvider (v1alpha1.Status (switchStatus now cr))
     = v1alpha1.AtProvider (v1alpha1.Status cr)
  /\ forall ct : string,
       ct <> xpv1.TypeReady ->
       v1alpha1.GetCondition ct (switchStatus now cr) = v1alpha1.GetCondition ct cr.
Proof.
  unfold switchStatus.
  destruct (String.eqb _ v1alpha1.StatusNew);
    [|destruct (String.eqb _ v1alpha1.StatusActive)];
    repeat split; intros ct Hct;
    try reflexivity; apply SetConditions_other; exact Hct.
Qed.

(** X1. Observe reports an instance as up to date exactly when it reports that it
    exists, and it reports existence only without an error: whatever it
    returns next to an error is the zero observation. *)
Theorem Observe_exists_iff_up_to_date
  (c : dropletExternal) (now : Z) (mg : Managed)
  (o : managed.ExternalObservation) (err : option errors.error) :
  result (Observe reportsNotFound LateInitializeSpec c now mg) = Done (o, err) ->
  managed.ResourceUpToDate o = managed.ResourceExists o
  /\ (managed.ResourceExists o = true -> err = None)
  /\ (err <> None -> o = zeroObservation)
  /\ managed.ObservationConnectionDetails o = ∅.
Proof.
  destruct mg as [cr|kind meta].
  - destruct (Observe_paths c now cr)
      as [[_ ->]|[(? & ? & ? & _ & ->)|[(? & _ & ->)|[(? & ? & _ & _ & ->)|
          [(? & ? & _ & _ & _ & ->)|(? & ? & ? & _ & _ & _ & ->)]]]]];
      cbn [result]; intros Hresult; try discriminate;
      injection Hresult as <- <-; repeat split; try discriminate; try congruence.
  - cbn. intros Hresult. injection Hresult as <- <-.
    repeat split; discriminate.
Qed.

(** X2. After an Observe that found the instance and returned without error, the
    record holds the observed creation timestamp, ID and status, and the
    parameters are the late-initialized ones. *)
Theorem Observe_records_observation
  (c : dropletExternal) (now : Z) (cr : v1alpha1.Droplet)
  (observed : godo.Droplet) (response : option godo.Response)
  (o : managed.ExternalObservation) :
  v1alpha1.GetExternalName cr <> "" ->
  godo.Get (Droplets c) (externalID cr) = (Some observed, response, None) ->
  result (Observe reportsNotFound LateInitializeSpec c now (IsDroplet cr)) = Done (o, None) ->
  exists cr' : v1alpha1.Droplet,
    object (Observe reportsNotFound LateInitializeSpec c now (IsDroplet cr)) = IsDroplet cr'
    /\ v1alpha1.AtProvider (v1alpha1.Status cr')
       = {| v1alpha1.DropletObservation.CreationTimestamp := godo.Created observed;
            v1alpha1.DropletObservation.ID := godo.ID observed;
            v1alpha1.DropletObservation.Status := godo.Status observed |}
    /\ v1alpha1.ForProvider (v1alpha1.Spec cr')
       = LateInitializeSpec (v1alpha1.ForProvider (v1alpha1.Spec cr)) observed.
Proof.
  intros Hne Hget.
  rewrite (Observe_found reportsNotFound LateInitializeSpec c now cr
             observed response Hne Hget). cbv zeta.
  destruct (if negb _ then _ else _) as [e|]; cbn [result object]; [discriminate|].
  intros _. eexists. split; [reflexivity|].
  destruct (switchStatus_frame now
              (v1alpha1.withAtProvider (observation observed)
                 (lateInitialized LateInitializeSpec cr observed)))
    as (_ & Hspec & Hat & _).
  rewrite Hat, Hspec. split; reflexivity.
Qed.

(** X3. Observe makes no call, or one get, or one get followed by one update of
    the store with the late-initialized record: never a create or a delete,
    and never an update without an instance in hand. *)
Theorem Observe_calls
  (c : dropletExternal) (now : Z) (cr : v1alpha1.Droplet) :
  let out := Observe reportsNotFound LateInitializeSpec c now (IsDroplet cr) in
  (v1alpha1.GetExternalName cr = "" /\ made out = [])
  \/ made out = [CallGet (externalID cr)]
  \/ (exists observed response,
        godo.Get (Droplets c) (externalID cr) = (Some observed, response, None)
        /\ LateInitializeSpec (v1alpha1.ForProvider (v1alpha1.Spec cr)) observed
           <> v1alpha1.ForProvider (v1alpha1.Spec cr)
        /\ made out = [CallGet (externalID cr);
                       CallKubeUpdate (lateInitialized LateInitializeSpec cr observed)]).
Proof.
  cbv zeta.
  destruct (Observe_paths c now cr)
    as [[Hempty ->]|[(? & ? & ? & _ & ->)|[(? & _ & ->)|[(? & ? & _ & _ & ->)|
        [(observed & response & Hget & Hchanged & _ & ->)
        |(observed & response & ? & Hget & Hchanged & _ & ->)]]]]];
    cbn [made].
  - left. split; [exact Hempty|reflexivity].
  - right. left. reflexivity.
  - right. left. reflexivity.
  - right. left. reflexivity.
  - right. right. exists observed, response. split; [exact Hget|].
    split; [exact Hchanged|reflexivity].
  - right. right. exists observed, response. split; [exact Hget|].
    split; [exact Hchanged|reflexivity].
Qed.

(** X4. Observe never writes the metadata, the resource spec (deletion policy,
    provider references) or a condition of another type than Ready; when it
    returns an error the whole status is as before, and when it panics the
    whole record is. *)
Theorem Observe_frame
  (c : dropletExternal) (now : Z) (cr : v1alpha1.Droplet) :
  let out := Observe reportsNotFound LateInitializeSpec c now (IsDroplet cr) in
  exists cr' : v1alpha1.Droplet,
    object out = IsDroplet cr'
    /\ v1alpha1.ObjectMeta cr' = v1alpha1.ObjectMeta cr
    /\ v1alpha1.ResourceSpec_ (v1alpha1.Spec cr') = v1alpha1.ResourceSpec_ (v1alpha1.Spec cr)
    /\ (forall ct : string,
          ct <> xpv1.TypeReady ->
          v1alpha1.GetCondition ct cr' = v1alpha1.GetCondition ct cr)
    /\ (forall (o : managed.ExternalObservation) (e : errors.error),
          result out = Done (o, Some e) -> v1alpha1.Status cr' = v1alpha1.Status cr)
    /\ (result out = Panicked -> cr' = cr).
Proof.
  cbv zeta.
  destruct (Observe_paths c now cr)
    as [[_ ->]|[(? & ? & ? & _ & ->)|[(? & _ & ->)|[(observed & ? & _ & _ & ->)|
        [(observed & ? & _ & _ & _ & ->)|(observed & ? & ? & _ & _ & _ & ->)]]]]];
    cbn [object result]; eexists; (split; [reflexivity|]).
  1-3, 6: repeat split; try reflexivity; intros; try discriminate; reflexivity.
  all: destruct (switchStatus_frame now
                   (v1alpha1.withAtProvider (observation observed)
                      (lateInitialized LateInitializeSpec cr observed)))
         as (Hmeta & Hspec & _ & Hother);
    rewrite Hmeta, Hspec;
    (split; [reflexivity|]); (split; [reflexivity|]);
    (split; [intros ct Hct; rewrite (Hother ct Hct); reflexivity|]);
    split; intros; discriminate.
Qed.

(** X5. A get that returns neither an instance nor an error makes Observe panic
    on the nil instance, after that one call and before any write to the
    record. *)
Theorem Observe_panics_on_nil_instance
  (c : dropletExternal) (now : Z) (cr : v1alpha1.Droplet)
  (response : option godo.Response) :
  v1alpha1.GetExternalName cr <> "" ->
  godo.Get (Droplets c) (externalID cr) = (None, response, None) ->
  result (Observe reportsNotFound LateInitializeSpec c now (IsDroplet cr)) = Panicked
  /\ made (Observe reportsNotFound LateInitializeSpec c now (IsDroplet cr))
     = [CallGet (externalID cr)]
  /\ object (Observe reportsNotFound LateInitializeSpec c now (IsDroplet cr))
     = IsDroplet cr.
Proof.
  intros Hne Hget.
  rewrite (Observe_nil_instance reportsNotFound LateInitializeSpec c now cr
             response Hne Hget).
  repeat split.
Qed.

(** ** What Create and Delete do around the provider call *)

Lemma SetConditions_again (c c' : xpv1.Condition) (cr : v1alpha1.Droplet) :
  xpv1.Equal c c' = true ->
  v1alpha1.SetConditions [c'] (v1alpha1.SetConditions [c] cr)
  = v1alpha1.SetConditions [c] cr.
Proof.
  intros Hequal. unfold v1alpha1.SetConditions, v1alpha1.withResourceStatus. cbn.
  rewrite (SetCondition_again _ c c' Hequal). reflexivity.
Qed.

Lemma GetCondition_SetConditions (c : xpv1.Condition) (cr : v1alpha1.Droplet) :
  xpv1.Equal (v1alpha1.GetCondition (xpv1.Type_ c) (v1alpha1.SetConditions [c] cr)) c = true.
Proof.
  unfold v1alpha1.GetCondition, v1alpha1.SetConditions. cbn.
  apply GetCondition_SetCondition.
Qed.

(** X6. Whatever the provider answers, an instance, an error or nothing at
    all, the record Create hands back has the Ready condition Creating and
    the record Delete hands back has it Deleting: no return of the two
    operations on a Droplet record leaves the condition out. *)
Theorem Create_and_Delete_mark_progress
  (c : dropletExternal) (now : Z) (cr : v1alpha1.Droplet) :
  (exists cr' : v1alpha1.Droplet,
     object (Create GenerateDroplet c now (IsDroplet cr)) = IsDroplet cr'
     /\ xpv1.Equal (v1alpha1.GetCondition xpv1.TypeReady cr') (xpv1.Creating now) = true)
  /\ (exists cr' : v1alpha1.Droplet,
        object (Delete reportsNotFound c now (IsDroplet cr)) = IsDroplet cr'
        /\ xpv1.Equal (v1alpha1.GetCondition xpv1.TypeReady cr') (xpv1.Deleting now) = true).
Proof.
  split.
  - destruct (Create_paths c now cr)
      as [(d & ? & _ & ->)|(? & ? & ? & _ & _ & ->)]; cbn [object].
    + eexists. split; [reflexivity|].
      destruct (String.eqb (v1alpha1.GetExternalName cr) "");
        apply (GetCondition_SetConditions (xpv1.Creating now) cr).
    + eexists. split; [reflexivity|].
      apply (GetCondition_SetConditions (xpv1.Creating now) cr).
  - destruct (godo.Delete (Droplets c)
                (v1alpha1.DropletObservation.ID (v1alpha1.AtProvider (v1alpha1.Status cr))))
      as [response err] eqn:Hdelete.
    rewrite (Delete_droplet reportsNotFound c now cr response err Hdelete). cbn [object].
    eexists. split; [reflexivity|].
    apply (GetCondition_SetConditions (xpv1.Deleting now) cr).
Qed.

(** X7. When the provider's create reports an error, Create returns that error
    wrapped, with the message "creation of Droplet resource has failed: "
    in front of the cause's, reports no assigned identity, and leaves the
    metadata, the identity with it, as it was. *)
Theorem Create_provider_error
  (c : dropletExternal) (now : Z) (cr : v1alpha1.Droplet)
  (droplet : option godo.Droplet) (response : option godo.Response)
  (e : errors.error) :
  godo.Create (Droplets c) (createRequest GenerateDroplet cr) = (droplet, response, Some e) ->
  result (Create GenerateDroplet c now (IsDroplet cr))
  = Done ({| managed.ExternalNameAssigned := false;
             managed.CreationConnectionDetails := ∅ |},
          Some (errors.withMessage e errDropletCreateFailed))
  /\ errors.Error (errors.withMessage e errDropletCreateFailed)
     = "creation of Droplet resource has failed: " +:+ errors.Error e
  /\ exists cr' : v1alpha1.Droplet,
       object (Create GenerateDroplet c now (IsDroplet cr)) = IsDroplet cr'
       /\ v1alpha1.ObjectMeta cr' = v1alpha1.ObjectMeta cr.
Proof.
  intros Hcreate.
  rewrite (Create_failure GenerateDroplet c now cr droplet response (Some e) Hcreate)
    by (left; discriminate).
  split; [reflexivity|]. split; [reflexivity|].
  eexists. split; reflexivity.
Qed.

(** X8. Create makes exactly one call, a create whose request is generated from
    the identity as name, or from the record's name if there is no identity,
    and from the parameters.  It never writes the spec, the observation, the
    record's name, an annotation other than the external name, or a condition
    of another type than Ready. *)
Theorem Create_call_and_frame
  (c : dropletExternal) (now : Z) (cr : v1alpha1.Droplet) :
  let out := Create GenerateDroplet c now (IsDroplet cr) in
  made out
  = [CallCreate
       (GenerateDroplet
          (if String.eqb (v1alpha1.GetExternalName cr) ""
           then meta.Name (v1alpha1.ObjectMeta cr)
           else v1alpha1.GetExternalName cr)
          (v1alpha1.ForProvider (v1alpha1.Spec cr))
          godo.DropletCreateRequest.zero)]
  /\ exists cr' : v1alpha1.Droplet,
       object out = IsDroplet cr'
       /\ v1alpha1.Spec cr' = v1alpha1.Spec cr
       /\ v1alpha1.AtProvider (v1alpha1.Status cr') = v1alpha1.AtProvider (v1alpha1.Status cr)
       /\ meta.Name (v1alpha1.ObjectMeta cr') = meta.Name (v1alpha1.ObjectMeta cr)
       /\ (forall k : string,
             k <> meta.AnnotationKeyExternalName ->
             meta.Annotations (v1alpha1.ObjectMeta cr') !! k
             = meta.Annotations (v1alpha1.ObjectMeta cr) !! k)
       /\ (forall ct : string,
             ct <> xpv1.TypeReady ->
             v1alpha1.GetCondition ct cr' = v1alpha1.GetCondition ct cr).
Proof.
  cbv zeta.
  destruct (Create_paths c now cr)
    as [(d & ? & _ & ->)|(? & ? & ? & _ & _ & ->)]; cbn [made object].
  - split; [reflexivity|].
    destruct (String.eqb (v1alpha1.GetExternalName cr) "").
    + eexists. split; [reflexivity|]. repeat split.
      * intros k Hk. cbn. rewrite lookup_insert_ne by congruence. reflexivity.
      * intros ct Hct. apply (SetConditions_other (xpv1.Creating now) ct cr Hct).
    + eexists. split; [reflexivity|]. repeat split.
      intros ct Hct. apply (SetConditions_other (xpv1.Creating now) ct cr Hct).
  - split; [reflexivity|]. eexists. split; [reflexivity|]. repeat split.
    intros ct Hct. apply (SetConditions_other (xpv1.Creating now) ct cr Hct).
Qed.

(** X9. Delete makes exactly one call: a delete of the ID in the last
    observation, whatever the identity says.  It never writes the metadata,
    the spec, the observation, or a condition of another type than Ready. *)
Theorem Delete_call_and_frame
  (c : dropletExternal) (now : Z) (cr : v1alpha1.Droplet) :
  let out := Delete reportsNotFound c now (IsDroplet cr) in
  made out
  = [CallDelete (v1alpha1.DropletObservation.ID (v1alpha1.AtProvider (v1alpha1.Status cr)))]
  /\ exists cr' : v1alpha1.Droplet,
       object out = IsDroplet cr'
       /\ v1alpha1.ObjectMeta cr' = v1alpha1.ObjectMeta cr
       /\ v1alpha1.Spec cr' = v1alpha1.Spec cr
       /\ v1alpha1.AtProvider (v1alpha1.Status cr') = v1alpha1.AtProvider (v1alpha1.Status cr)
       /\ (forall ct : string,
             ct <> xpv1.TypeReady ->
             v1alpha1.GetCondition ct cr' = v1alpha1.GetCondition ct cr).
Proof.
  cbv zeta.
  destruct (godo.Delete (Droplets c)
              (v1alpha1.DropletObservation.ID (v1alpha1.AtProvider (v1alpha1.Status cr))))
    as [response err] eqn:Hdelete.
  rewrite (Delete_droplet reportsNotFound c now cr response err Hdelete). cbn [made object].
  split; [reflexivity|]. eexists. split; [reflexivity|]. repeat split.
  intros ct Hct. apply (SetConditions_other (xpv1.Deleting now) ct cr Hct).
Qed.

(** X10. Idempotent delete.  A second Delete, on the record as the first one left
    it, asks for the same ID and leaves the record exactly as it found it
    (the Deleting condition keeps the transition time of the first); if the
    provider now answers "not found", it returns a nil error. *)
Theorem Delete_twice
  (c1 c2 : dropletExternal) (now1 now2 : Z) (cr : v1alpha1.Droplet) :
  let first := Delete reportsNotFound c1 now1 (IsDroplet cr) in
  let second := Delete reportsNotFound c2 now2 (object first) in
  let dropletID :=
    v1alpha1.DropletObservation.ID (v1alpha1.AtProvider (v1alpha1.Status cr)) in
  made second = [CallDelete dropletID]
  /\ object second = object first
  /\ (forall (response : option godo.Response) (e : errors.error),
        godo.Delete (Droplets c2) dropletID = (response, Some e) ->
        reportsNotFound e response = true ->
        result second = Done None).
Proof.
  cbv zeta.
  destruct (godo.Delete (Droplets c1)
              (v1alpha1.DropletObservation.ID (v1alpha1.AtProvider (v1alpha1.Status cr))))
    as [response1 err1] eqn:Hfirst.
  rewrite (Delete_droplet reportsNotFound c1 now1 cr response1 err1 Hfirst). cbn [object].
  destruct (godo.Delete (Droplets c2)
              (v1alpha1.DropletObservation.ID (v1alpha1.AtProvider (v1alpha1.Status cr))))
    as [response2 err2] eqn:Hsecond.
  rewrite (Delete_droplet reportsNotFound c2 now2
             (v1alpha1.SetConditions [xpv1.Deleting now1] cr) response2 err2 Hsecond).
  cbn [made object result].
  split; [reflexivity|]. split.
  - f_equal. apply SetConditions_again. reflexivity.
  - intros response e Hanswer Hnf. injection Hanswer as -> ->.
    cbn. rewrite Hnf. reflexivity.
Qed.

(** ** How the operations compose *)

(** X11. After a Create that assigned the identity, Observe asks the provider for
    exactly the instance the create returned. *)
Theorem Create_then_Observe
  (c c2 : dropletExternal) (now now2 : Z) (cr : v1alpha1.Droplet)
  (d : godo.Droplet) (response : option godo.Response) :
  v1alpha1.GetExternalName cr = "" ->
  godo.Create (Droplets c) (createRequest GenerateDroplet cr) = (Some d, response, None) ->
  strconv.is_int (godo.ID d) ->
  exists rest : list Call,
    made (Observe reportsNotFound LateInitializeSpec c2 now2
            (object (Create GenerateDroplet c now (IsDroplet cr))))
    = CallGet (godo.ID d) :: rest.
Proof.
  intros Hempty Hcreate Hint.
  rewrite (Create_success c now cr d response Hcreate). cbn [object].
  rewrite (eqb_identity_empty cr Hempty).
  set (cr' := v1alpha1.SetExternalName (strconv.Itoa (godo.ID d))
                (v1alpha1.SetConditions [xpv1.Creating now] cr)).
  assert (Hname : v1alpha1.GetExternalName cr' = strconv.Itoa (godo.ID d))
    by apply GetExternalName_SetExternalName.
  assert (Hid : externalID cr' = godo.ID d).
  { unfold externalID. rewrite Hname, (Atoi_Itoa _ Hint). reflexivity. }
  assert (Hne : v1alpha1.GetExternalName cr' <> "").
  { rewrite Hname. apply (Atoi_nonempty _ (godo.ID d)). apply Atoi_Itoa. exact Hint. }
  rewrite <- Hid.
  destruct (Observe_paths c2 now2 cr')
    as [[Hnone _]|[(? & ? & ? & _ & ->)|[(? & _ & ->)|[(? & ? & _ & _ & ->)|
        [(? & ? & _ & _ & _ & ->)|(? & ? & ? & _ & _ & _ & ->)]]]]];
    [contradiction|..]; cbn [made]; eexists; reflexivity.
Qed.

(** X12. After an Observe that found the instance, Delete asks the provider to
    delete the ID that instance reported. *)
Theorem Observe_then_Delete
  (c c2 : dropletExternal) (now now2 : Z) (cr : v1alpha1.Droplet)
  (observed : godo.Droplet) (response : option godo.Response)
  (o : managed.ExternalObservation) :
  v1alpha1.GetExternalName cr <> "" ->
  godo.Get (Droplets c) (externalID cr) = (Some observed, response, None) ->
  result (Observe reportsNotFound LateInitializeSpec c now (IsDroplet cr)) = Done (o, None) ->
  made (Delete reportsNotFound c2 now2
          (object (Observe reportsNotFound LateInitializeSpec c now (IsDroplet cr))))
  = [CallDelete (godo.ID observed)].
Proof.
  intros Hne Hget.
  rewrite (Observe_found reportsNotFound LateInitializeSpec c now cr
             observed response Hne Hget). cbv zeta.
  destruct (if negb _ then _ else _) as [e|]; cbn [result object]; [discriminate|].
  intros _.
  set (cr' := switchStatus now
                (v1alpha1.withAtProvider (observation observed)
                   (lateInitialized LateInitializeSpec cr observed))).
  assert (Hid : v1alpha1.DropletObservation.ID (v1alpha1.AtProvider (v1alpha1.Status cr'))
                = godo.ID observed).
  { subst cr'. destruct (switchStatus_frame now
                           (v1alpha1.withAtProvider (observation observed)
                              (lateInitialized LateInitializeSpec cr observed)))
      as (_ & _ & -> & _). reflexivity. }
  destruct (godo.Delete (Droplets c2)
              (v1alpha1.DropletObservation.ID (v1alpha1.AtProvider (v1alpha1.Status cr'))))
    as [response2 err2] eqn:Hdelete.
  rewrite (Delete_droplet reportsNotFound c2 now2 cr' response2 err2 Hdelete).
  cbn [made]. rewrite Hid. reflexivity.
Qed.

(** X13. An Observe that maps the status to the condition the record already
    carries, set by an earlier operation, leaves the conditions exactly as
    they are: the transition time of the earlier operation stays.  That is
    so for status "new" after Creating was set, and for status "active"
    after Available was set. *)
Theorem Observe_keeps_transition_time
  (c : dropletExternal) (now t : Z) (cr : v1alpha1.Droplet)
  (rs : xpv1.ConditionedStatus)
  (observed : godo.Droplet) (response : option godo.Response)
  (o : managed.ExternalObservation) :
  v1alpha1.GetExternalName cr <> "" ->
  godo.Get (Droplets c) (externalID cr) = (Some observed, response, None) ->
  result (Observe reportsNotFound LateInitializeSpec c now (IsDroplet cr)) = Done (o, None) ->
  (godo.Status observed = "new"
   /\ v1alpha1.ResourceStatus (v1alpha1.Status cr) = xpv1.SetConditions rs [xpv1.Creating t])
  \/ (godo.Status observed = "active"
      /\ v1alpha1.ResourceStatus (v1alpha1.Status cr)
         = xpv1.SetConditions rs [xpv1.Available t]) ->
  exists cr' : v1alpha1.Droplet,
    object (Observe reportsNotFound LateInitializeSpec c now (IsDroplet cr)) = IsDroplet cr'
    /\ v1alpha1.ResourceStatus (v1alpha1.Status cr')
       = v1alpha1.ResourceStatus (v1alpha1.Status cr).
Proof.
  intros Hne Hget.
  rewrite (Observe_found reportsNotFound LateInitializeSpec c now cr
             observed response Hne Hget). cbv zeta.
  destruct (if negb _ then _ else _) as [e|]; cbn [result object]; [discriminate|].
  intros _ Hcarried. eexists. split; [reflexivity|].
  unfold switchStatus. cbn [v1alpha1.withAtProvider v1alpha1.Status v1alpha1.AtProvider
    observation v1alpha1.DropletObservation.Status].
  destruct Hcarried as [[-> Hrs]|[-> Hrs]]; cbn [String.eqb Ascii.eqb Bool.eqb];
    unfold v1alpha1.StatusNew, v1alpha1.StatusActive; cbn -[xpv1.SetCondition];
    rewrite Hrs; cbn -[xpv1.SetCondition]; apply SetCondition_again; reflexivity.
Qed.

(** ** Invariants of every sequence of operations *)

Lemma formatBits_nonempty (fuel : nat) :
  forall (u : Z) (acc : string), strconv.formatBits fuel u acc <> "".
Proof.
  induction fuel as [|fuel IH]; intros u acc; cbn; [discriminate|].
  destruct (10 <=? u); [apply IH|discriminate].
Qed.

Lemma Itoa_nonempty (i : Z) : strconv.Itoa i <> "".
Proof.
  unfold strconv.Itoa. destruct (i <? 0); [discriminate|apply formatBits_nonempty].
Qed.

(** One operation leaves the identity as it is, or, if there was none and
    the operation is Create, leaves an integer rendered by [strconv.Itoa]. *)
Lemma identity_step (op : Operation) (c : dropletExternal) (now : Z) (mg : Managed) :
  identity (after reportsNotFound LateInitializeSpec GenerateDroplet op c now mg)
  = identity mg
  \/ (identity mg = ""
      /\ exists z : Z,
           identity (after reportsNotFound LateInitializeSpec GenerateDroplet op c now mg)
           = strconv.Itoa z).
Proof.
  destruct (String.eqb_spec (identity mg) "") as [Hempty|Hne].
  - destruct op;
      try (left; apply identity_after; intros Hop; discriminate Hop).
    destruct mg as [cr|kind o]; [|left; reflexivity]. cbn [identity] in Hempty.
    cbn [after].
    destruct (Create_paths c now cr)
      as [(d & ? & _ & ->)|(? & ? & ? & _ & _ & ->)]; cbn [object identity].
    + right. split; [exact Hempty|]. exists (godo.ID d).
      rewrite (eqb_identity_empty cr Hempty).
      apply GetExternalName_SetExternalName.
    + left. reflexivity.
  - left. apply identity_after. intros _. exact Hne.
Qed.

(** X14. The identity is written at most once.  Through every sequence of
    operations an identity that is not empty stays what it is, be it a
    number or a name the user chose; an empty one stays empty or becomes an
    integer rendered by [strconv.Itoa]. *)
Theorem identity_assigned_at_most_once
  (steps : list (Operation * dropletExternal * Z)) (mg : Managed) :
  let mg' := reconcile reportsNotFound LateInitializeSpec GenerateDroplet steps mg in
  (identity mg <> "" -> identity mg' = identity mg)
  /\ (identity mg = "" ->
      identity mg' = "" \/ exists z : Z, identity mg' = strconv.Itoa z).
Proof.
  cbv zeta. revert mg.
  induction steps as [|[[op c] now] rest IH]; intros mg.
  - split; [reflexivity|]. intros Hempty. left. exact Hempty.
  - cbn [reconcile].
    destruct (IH (after reportsNotFound LateInitializeSpec GenerateDroplet op c now mg))
      as [IHkeep IHempty].
    destruct (identity_step op c now mg) as [Hsame|[Hempty (z & Hz)]].
    + rewrite Hsame in IHkeep, IHempty. split.
      * exact IHkeep.
      * exact IHempty.
    + split; [intros Hne; contradiction|]. intros _. right. exists z.
      rewrite IHkeep; [exact Hz|]. rewrite Hz. apply Itoa_nonempty.
Qed.

(** One operation on a Droplet record hands back a Droplet record with the
    same name, resource spec and conditions of every type but Ready. *)
Lemma after_frame (op : Operation) (c : dropletExternal) (now : Z)
  (cr : v1alpha1.Droplet) :
  exists cr' : v1alpha1.Droplet,
    after reportsNotFound LateInitializeSpec GenerateDroplet op c now (IsDroplet cr)
    = IsDroplet cr'
    /\ meta.Name (v1alpha1.ObjectMeta cr') = meta.Name (v1alpha1.ObjectMeta cr)
    /\ v1alpha1.ResourceSpec_ (v1alpha1.Spec cr') = v1alpha1.ResourceSpec_ (v1alpha1.Spec cr)
    /\ forall ct : string,
         ct <> xpv1.TypeReady ->
         v1alpha1.GetCondition ct cr' = v1alpha1.GetCondition ct cr.
Proof.
  destruct op; cbn [after].
  - destruct (Observe_paths c now cr)
      as [[_ ->]|[(? & ? & ? & _ & ->)|[(? & _ & ->)|[(observed & ? & _ & _ & ->)|
          [(observed & ? & _ & _ & _ & ->)|(observed & ? & ? & _ & _ & _ & ->)]]]]];
      cbn [object]; eexists; (split; [reflexivity|]).
    1-3, 6: repeat split; reflexivity.
    all: destruct (switchStatus_frame now
                     (v1alpha1.withAtProvider (observation observed)
                        (lateInitialized LateInitializeSpec cr observed)))
           as (Hmeta & Hspec & _ & Hother);
      rewrite Hmeta, Hspec;
      (split; [reflexivity|]); (split; [reflexivity|]);
      intros ct Hct; rewrite (Hother ct Hct); reflexivity.
  - destruct (Create_paths c now cr)
      as [(d & ? & _ & ->)|(? & ? & ? & _ & _ & ->)]; cbn [object].
    + destruct (String.eqb (v1alpha1.GetExternalName cr) "");
        eexists; (split; [reflexivity|]); repeat split;
        intros ct Hct; apply (SetConditions_other (xpv1.Creating now) ct cr Hct).
    + eexists. split; [reflexivity|]. repeat split.
      intros ct Hct. apply (SetConditions_other (xpv1.Creating now) ct cr Hct).
  - exists cr. repeat split.
  - destruct (godo.Delete (Droplets c)
                (v1alpha1.DropletObservation.ID (v1alpha1.AtProvider (v1alpha1.Status cr))))
      as [response err] eqn:Hdelete.
    rewrite (Delete_droplet reportsNotFound c now cr response err Hdelete). cbn [object].
    eexists. split; [reflexivity|]. repeat split.
    intros ct Hct. apply (SetConditions_other (xpv1.Deleting now) ct cr Hct).
Qed.

(** X15. Through every sequence of operations a Droplet record stays a Droplet
    record with the same name, the same resource spec (deletion policy,
    provider references) and the same conditions of every type but Ready: a
    Synced condition is never touched. *)
Theorem reconcile_frame
  (steps : list (Operation * dropletExternal * Z)) (cr : v1alpha1.Droplet) :
  exists cr' : v1alpha1.Droplet,
    reconcile reportsNotFound LateInitializeSpec GenerateDroplet steps (IsDroplet cr)
    = IsDroplet cr'
    /\ meta.Name (v1alpha1.ObjectMeta cr') = meta.Name (v1alpha1.ObjectMeta cr)
    /\ v1alpha1.ResourceSpec_ (v1alpha1.Spec cr') = v1alpha1.ResourceSpec_ (v1alpha1.Spec cr)
    /\ forall ct : string,
         ct <> xpv1.TypeReady ->
         v1alpha1.GetCondition ct cr' = v1alpha1.GetCondition ct cr.
Proof.
  revert cr. induction steps as [|[[op c] now] rest IH]; intros cr.
  - exists cr. repeat split.
  - cbn [reconcile].
    destruct (after_frame op c now cr) as (cr1 & -> & Hname1 & Hspec1 & Hother1).
    destruct (IH cr1) as (cr' & -> & Hname & Hspec & Hother).
    exists cr'. split; [reflexivity|].
    split; [congruence|]. split; [congruence|].
    intros ct Hct. rewrite (Hother ct Hct). apply Hother1. exact Hct.
Qed.

(** X16. A name the user chose as identity is never replaced by the provider's ID:
    through every sequence of operations the identity stays the name, so
    every later Observe asks the provider for ID 0. *)
Theorem chosen_name_is_never_replaced
  (steps : list (Operation * dropletExternal * Z)) (cr : v1alpha1.Droplet)
  (c : dropletExternal) (now : Z) :
  v1alpha1.GetExternalName cr <> "" ->
  strconv.Atoi (v1alpha1.GetExternalName cr) = None ->
  exists cr' : v1alpha1.Droplet,
    reconcile reportsNotFound LateInitializeSpec GenerateDroplet steps (IsDroplet cr)
    = IsDroplet cr'
    /\ v1alpha1.GetExternalName cr' = v1alpha1.GetExternalName cr
    /\ exists rest : list Call,
         made (Observe reportsNotFound LateInitializeSpec c now (IsDroplet cr'))
         = CallGet 0 :: rest.
Proof.
  intros Hne Hparse.
  assert (Hkeep : forall (steps : list (Operation * dropletExternal * Z)) (mg : Managed),
             identity mg <> "" ->
             identity (reconcile reportsNotFound LateInitializeSpec GenerateDroplet steps mg)
             = identity mg).
  { clear. intros steps. induction steps as [|[[op c] now] rest IH]; intros mg Hmg.
    - reflexivity.
    - cbn [reconcile].
      assert (Hstep : identity (after reportsNotFound LateInitializeSpec GenerateDroplet
                                  op c now mg) = identity mg)
        by (apply identity_after; intros _; exact Hmg).
      rewrite IH; [exact Hstep|]. rewrite Hstep. exact Hmg. }
  assert (Hkind : forall (steps : list (Operation * dropletExternal * Z))
                         (cr : v1alpha1.Droplet),
             exists cr' : v1alpha1.Droplet,
               reconcile reportsNotFound LateInitializeSpec GenerateDroplet steps
                 (IsDroplet cr) = IsDroplet cr').
  { clear. intros steps. induction steps as [|[[op c] now] rest IH]; intros cr.
    - exists cr. reflexivity.
    - cbn [reconcile]. destruct (after_frame op c now cr) as (cr1 & -> & _).
      apply IH. }
  destruct (Hkind steps cr) as (cr' & Hcr').
  exists cr'. split; [exact Hcr'|].
  pose proof (Hkeep steps (IsDroplet cr) Hne) as Hid.
  rewrite Hcr' in Hid. cbn [identity] in Hid.
  split; [exact Hid|].
  assert (Hzero : externalID cr' = 0)
    by (unfold externalID; rewrite Hid, Hparse; reflexivity).
  assert (Hne' : v1alpha1.GetExternalName cr' <> "") by (rewrite Hid; exact Hne).
  rewrite <- Hzero.
  destruct (Observe_paths c now cr')
    as [[Hnone _]|[(? & ? & ? & _ & ->)|[(? & _ & ->)|[(? & ? & _ & _ & ->)|
        [(? & ? & _ & _ & _ & ->)|(? & ? & ? & _ & _ & _ & ->)]]]]];
    [contradiction|..]; cbn [made]; eexists; reflexivity.
Qed.

(** X17. A record of another kind is rejected by Observe, Create and Delete with
    the error "managed resource is not a Droplet resource", before any call,
    and no sequence of operations changes it. *)
Theorem other_kind_is_rejected
  (c : dropletExternal) (now : Z) (kind : string) (o : meta.ObjectMeta)
  (steps : list (Operation * dropletExternal * Z)) :
  let mg := OtherKind kind o in
  Observe reportsNotFound LateInitializeSpec c now mg
  = {| object := mg; made := [];
       result := Done (zeroObservation, Some (errors.errorString errNotDroplet)) |}
  /\ Create GenerateDroplet c now mg
     = {| object := mg; made := [];
          result := Done (zeroCreation, Some (errors.errorString errNotDroplet)) |}
  /\ Delete reportsNotFound c now mg
     = {| object := mg; made := [];
          result := Done (Some (errors.errorString errNotDroplet)) |}
  /\ reconcile reportsNotFound LateInitializeSpec GenerateDroplet steps mg = mg.
Proof.
  cbv zeta. repeat split.
  induction steps as [|[[op c'] now'] rest IH]; [reflexivity|].
  cbn [reconcile]. destruct op; exact IH.
Qed.

End Further.

(** ** The further properties at concrete records and providers *)

(** An instance that exists is reported as up to date, without error. *)
Lemma Observe_exists_iff_up_to_date_witness :
  let o := {| managed.ResourceExists := true; managed.ResourceUpToDate := true;
              managed.ObservationConnectionDetails := ∅ |} in
  managed.ResourceUpToDate o = managed.ResourceExists o
  /\ (managed.ResourceExists o = true -> @None errors.error = None)
  /\ (@None errors.error <> None -> o = zeroObservation)
  /\ managed.ObservationConnectionDetails o = ∅.
Proof.
  cbv zeta.
  apply (Observe_exists_iff_up_to_date Example.statusNotFound Example.lateInitialize
           {| kube := Example.accepting;
              Droplets := Example.holding (Example.instance 123456 "active" "") |}
           10 (IsDroplet (Example.named "123456" [] 0))).
  reflexivity.
Defined.

(** The observation of instance 123456, in a VPC the record did not name. *)
Lemma Observe_records_observation_witness :
  exists cr' : v1alpha1.Droplet,
    object (Observe Example.statusNotFound Example.lateInitialize
              {| kube := Example.accepting;
                 Droplets := Example.holding (Example.instance 123456 "active" "vpc-1") |}
              10 (IsDroplet (Example.named "123456" [] 0))) = IsDroplet cr'
    /\ v1alpha1.AtProvider (v1alpha1.Status cr')
       = {| v1alpha1.DropletObservation.CreationTimestamp := "2020-07-21T18:37:44Z";
            v1alpha1.DropletObservation.ID := 123456;
            v1alpha1.DropletObservation.Status := "active" |}
    /\ v1alpha1.ForProvider (v1alpha1.Spec cr')
       = Example.lateInitialize Example.parameters (Example.instance 123456 "active" "vpc-1").
Proof.
  apply (Observe_records_observation Example.statusNotFound Example.lateInitialize
           {| kube := Example.accepting;
              Droplets := Example.holding (Example.instance 123456 "active" "vpc-1") |}
           10 (Example.named "123456" [] 0)
           (Example.instance 123456 "active" "vpc-1") (Example.response 200)
           {| managed.ResourceExists := true; managed.ResourceUpToDate := true;
              managed.ObservationConnectionDetails := ∅ |}).
  - intros H; vm_compute in H; discriminate H.
  - reflexivity.
  - reflexivity.
Defined.

(** A provider that answers the get with status 200 and an empty body. *)
Lemma Observe_panics_on_nil_instance_witness :
  let c := {| kube := Example.accepting;
              Droplets :=
                {| godo.Get := fun _ => (None, Example.response 200, None);
                   godo.Create := fun _ => (None, Example.response 503, Some Example.unavailable);
                   godo.Delete := fun _ => (Example.response 503, Some Example.unavailable) |} |} in
  let cr := Example.named "123456" [] 0 in
  result (Observe Example.statusNotFound Example.lateInitialize c 10 (IsDroplet cr))
  = Panicked
  /\ made (Observe Example.statusNotFound Example.lateInitialize c 10 (IsDroplet cr))
     = [CallGet 123456]
  /\ object (Observe Example.statusNotFound Example.lateInitialize c 10 (IsDroplet cr))
     = IsDroplet cr.
Proof.
  cbv zeta.
  apply (Observe_panics_on_nil_instance Example.statusNotFound Example.lateInitialize
           {| kube := Example.accepting;
              Droplets :=
                {| godo.Get := fun _ => (None, Example.response 200, None);
                   godo.Create := fun _ => (None, Example.response 503, Some Example.unavailable);
                   godo.Delete := fun _ => (Example.response 503, Some Example.unavailable) |} |}
           10 (Example.named "123456" [] 0) (Example.response 200)).
  - intros H; vm_compute in H; discriminate H.
  - reflexivity.
Defined.

(** A provider that is out of service when the fresh record is created. *)
Lemma Create_provider_error_witness :
  result (Create Example.generateDroplet
            {| kube := Example.accepting;
               Droplets := Example.creating
                             (None, Example.response 503, Some Example.unavailable) |}
            10 (IsDroplet Example.fresh))
  = Done ({| managed.ExternalNameAssigned := false;
             managed.CreationConnectionDetails := ∅ |},
          Some (errors.withMessage Example.unavailable errDropletCreateFailed))
  /\ errors.Error (errors.withMessage Example.unavailable errDropletCreateFailed)
     = "creation of Droplet resource has failed: 503 Service Unavailable".
Proof.
  destruct (Create_provider_error Example.generateDroplet
              {| kube := Example.accepting;
                 Droplets := Example.creating
                               (None, Example.response 503, Some Example.unavailable) |}
              10 Example.fresh None (Example.response 503) Example.unavailable eq_refl)
    as (Hresult & Hmessage & _).
  split; [exact Hresult|exact Hmessage].
Defined.

(** The fresh record is created as instance 123456 and then observed. *)
Lemma Create_then_Observe_witness :
  let c := {| kube := Example.accepting;
              Droplets := Example.holding (Example.instance 123456 "new" "") |} in
  exists rest : list Call,
    made (Observe Example.statusNotFound Example.lateInitialize c 20
            (object (Create Example.generateDroplet c 10 (IsDroplet Example.fresh))))
    = CallGet 123456 :: rest.
Proof.
  cbv zeta.
  apply (Create_then_Observe Example.statusNotFound Example.lateInitialize
           Example.generateDroplet
           {| kube := Example.accepting;
              Droplets := Example.holding (Example.instance 123456 "new" "") |}
           {| kube := Example.accepting;
              Droplets := Example.holding (Example.instance 123456 "new" "") |}
           10 20 Example.fresh (Example.instance 123456 "new" "") (Example.response 202)).
  - reflexivity.
  - reflexivity.
  - split; vm_compute; discriminate.
Defined.

(** A record that was never observed (observed ID 0) is observed as
    instance 123456 and then deleted. *)
Lemma Observe_then_Delete_witness :
  let c := {| kube := Example.accepting;
              Droplets := Example.holding (Example.instance 123456 "active" "") |} in
  made (Delete Example.statusNotFound c 20
          (object (Observe Example.statusNotFound Example.lateInitialize c 10
                     (IsDroplet (Example.named "123456" [] 0)))))
  = [CallDelete 123456].
Proof.
  cbv zeta.
  apply (Observe_then_Delete Example.statusNotFound Example.lateInitialize
           {| kube := Example.accepting;
              Droplets := Example.holding (Example.instance 123456 "active" "") |}
           {| kube := Example.accepting;
              Droplets := Example.holding (Example.instance 123456 "active" "") |}
           10 20 (Example.named "123456" [] 0)
           (Example.instance 123456 "active" "") (Example.response 200)
           {| managed.ResourceExists := true; managed.ResourceUpToDate := true;
              managed.ObservationConnectionDetails := ∅ |}).
  - intros H; vm_compute in H; discriminate H.
  - reflexivity.
  - reflexivity.
Defined.

(** Creating was set at time 2; the instance is still "new" at time 3. *)
Lemma Observe_keeps_transition_time_witness :
  exists cr' : v1alpha1.Droplet,
    object (Observe Example.statusNotFound Example.lateInitialize
              {| kube := Example.accepting;
                 Droplets := Example.holding (Example.instance 123456 "new" "") |}
              3 (IsDroplet (Example.named "123456" [xpv1.Creating 2] 0))) = IsDroplet cr'
    /\ v1alpha1.ResourceStatus (v1alpha1.Status cr')
       = {| xpv1.Conditions := [xpv1.Creating 2] |}.
Proof.
  apply (Observe_keeps_transition_time Example.statusNotFound Example.lateInitialize
           {| kube := Example.accepting;
              Droplets := Example.holding (Example.instance 123456 "new" "") |}
           3 2 (Example.named "123456" [xpv1.Creating 2] 0)
           {| xpv1.Conditions := [] |}
           (Example.instance 123456 "new" "") (Example.response 200)
           {| managed.ResourceExists := true; managed.ResourceUpToDate := true;
              managed.ObservationConnectionDetails := ∅ |}).
  - intros H; vm_compute in H; discriminate H.
  - reflexivity.
  - reflexivity.
  - left. split; reflexivity.
Defined.

(** The record with the chosen name "web-1" is created as instance 123456
    and observed: its identity is still "web-1", and the next Observe asks
    for ID 0. *)
Lemma chosen_name_is_never_replaced_witness :
  let c := {| kube := Example.accepting;
              Droplets := Example.holding (Example.instance 123456 "active" "") |} in
  exists cr' : v1alpha1.Droplet,
    reconcile Example.statusNotFound Example.lateInitialize Example.generateDroplet
      [(OpCreate, c, 10); (OpObserve, c, 20)] (IsDroplet (Example.named "web-1" [] 0))
    = IsDroplet cr'
    /\ v1alpha1.GetExternalName cr' = "web-1"
    /\ exists rest : list Call,
         made (Observe Example.statusNotFound Example.lateInitialize c 30 (IsDroplet cr'))
         = CallGet 0 :: rest.
Proof.
  cbv zeta.
  apply (chosen_name_is_never_replaced Example.statusNotFound Example.lateInitialize
           Example.generateDroplet
           [(OpCreate,
             {| kube := Example.accepting;
                Droplets := Example.holding (Example.instance 123456 "active" "") |}, 10);
            (OpObserve,
             {| kube := Example.accepting;
                Droplets := Example.holding (Example.instance 123456 "active" "") |}, 20)]
           (Example.named "web-1" [] 0)
           {| kube := Example.accepting;
              Droplets := Example.holding (Example.instance 123456 "active" "") |}
           30).
  - intros H; vm_compute in H; discriminate H.
  - reflexivity.
Defined.

(** ** A Create that returns no error and assigns nothing *)

(** C10. At a provider that answers a create with a nil instance and a nil
    error, Create returns a nil error, so the call counts as successful, and
    yet the result reports [ExternalNameAssigned = false]; the identity is
    as it was, an empty one included, and the one call made is the create. *)
Theorem Create_nil_error_without_assignment
  (GenerateDroplet :
     string -> v1alpha1.DropletParameters -> godo.DropletCreateRequest.t ->
     godo.DropletCreateRequest.t)
  (k : client.Client) (now : Z) (cr : v1alpha1.Droplet)
  (response : option godo.Response) :
  let out :=
    Create GenerateDroplet
      {| kube := k; Droplets := Example.creating (None, response, None) |}
      now (IsDroplet cr) in
  exists o : managed.ExternalCreation,
    result out = Done (o, None)
    /\ managed.ExternalNameAssigned o = false
    /\ made out = [CallCreate (createRequest GenerateDroplet cr)]
    /\ identity (object out) = v1alpha1.GetExternalName cr.
Proof.
  cbv zeta.
  rewrite (Create_failure GenerateDroplet _ now cr None response None);
    [|reflexivity|right; reflexivity].
  exists zeroCreation. repeat split.
Qed.

(** The same at the fresh record of the end-to-end scenario: no error, no
    assigned identity, and the record still without one. *)
Example Create_nil_error_on_fresh_record :
  let out :=
    Create Example.generateDroplet
      {| kube := Example.accepting;
         Droplets := Example.creating (None, Example.response 202, None) |}
      10 (IsDroplet Example.fresh) in
  result out = Done ({| managed.ExternalNameAssigned := false;
                        managed.CreationConnectionDetails := ∅ |}, None)
  /\ identity (object out) = "".
Proof. cbv zeta. split; reflexivity. Qed.
